(** * StochasticModel: process-noise models of the GNSS Kalman filter

    Shallow embedding of [src/lib/gnss/StochasticModel.hpp].

    - A C++ [double] is a binary64 value of [PrimFloat.float]; the
      arithmetic and the comparisons are the IEEE ones of the primitive.
    - Every method is a function on the object state.  A method returning
      [void] or the object itself gives the new state; a getter gives the
      value read together with the state it leaves behind.
    - [CommonTime], [SourceID], [SatID] and [TypeID] are declared in
      [CommonTime.hpp] and [DataStructures.hpp]; they enter as the members
      of the class [Externals].
    - The header only declares some methods (their bodies are in
      [StochasticModel.cpp]).  Their definitions here follow the design
      document and are marked as such. *)

From Stdlib Require Import ZArith Floats Uint63.
From stdpp Require Import base option list gmap.

#[local] Set Warnings "-inexact-float".
#[local] Open Scope float_scope.

(** ** Values of type [double] *)

Module Double.

(** [x < 0.0] *)
Definition negative (x : float) : bool := x <? 0.

(** The same test on the specification side of binary64: only a nonzero
    value with the sign bit set is below zero. *)
Definition SFnegative (x : spec_float) : bool :=
  match x with
  | S754_infinity s | S754_finite s _ _ => s
  | S754_zero _ | S754_nan => false
  end.

(** [x != y] *)
Definition neqb (x y : float) : bool := negb (x =? y).



(** The clamp at 0 of the design document: a value below zero becomes
    0.0, any other value is kept. *)
Definition clamp (q : float) : float := if q <? 0 then 0 else q.

(** Nearest integral value of [x] in the current (to nearest) rounding
    mode, as [rint] of <cmath>: below 2^52 adding and removing 2^52
    leaves the integer part, from 2^52 on every double is integral. *)
Definition two52 : float := 4503599627370496.

Definition rint (x : float) : float :=
  if abs x <? two52
  then (if x <? 0 then (x - two52) + two52 else (x + two52) - two52)
  else x.

(** Conversion of an integer number of seconds. *)
Definition of_Z (z : Z) : float :=
  match z with
  | Z0 => 0
  | Zpos _ => of_uint63 (Uint63.of_Z z)
  | Zneg p => - of_uint63 (Uint63.of_Z (Zpos p))
  end.

End Double.

(** ** The types supplied by the other headers *)

(** [typeValueMap] is [std::map<TypeID, double>] and [satTypeValueMap] is
    [std::map<SatID, typeValueMap>]. *)
Class Externals := {
  (** [CommonTime]: compared with [==], subtracted with [operator-] *)
  CommonTime : Type;
  CommonTime_eq_dec :: EqDecision CommonTime;
  (** [CommonTime::BEGINNING_OF_TIME] *)
  BEGINNING_OF_TIME : CommonTime;
  (** a default-constructed [CommonTime] *)
  CommonTime_new : CommonTime;
  (** [a - b], the seconds elapsed from [b] to [a] *)
  elapsed : CommonTime -> CommonTime -> float;
  SourceID : Type;
  SourceID_eq_dec :: EqDecision SourceID;
  SourceID_countable :: Countable SourceID;
  SatID : Type;
  SatID_eq_dec :: EqDecision SatID;
  SatID_countable :: Countable SatID;
  TypeID : Type;
  TypeID_eq_dec :: EqDecision TypeID;
  TypeID_countable :: Countable TypeID;
  (** [TypeID::CSFlag] and [TypeID::satArc] *)
  CSFlag : TypeID;
  satArc : TypeID;
  (** the large variance that [IonoRandomWalkModel::Prepare] installs at
      an interrupt, a constant of [StochasticModel.cpp] *)
  interruptVariance : float
}.

Abbreviation typeValueMap := (gmap TypeID float).
Abbreviation satTypeValueMap := (gmap SatID (gmap TypeID float)).

(** ** class StochasticModel *)

Module StochasticModel.
Section defs.
Context `{Externals}.

(** The base class has no data member. *)
Definition t : Type := unit.

Definition new : t := tt.

Definition getPhi (s : t) : float * t := (1.0, s).

Definition getQ (s : t) : float * t := (0.0, s).

Definition Prepare (time : CommonTime) (source : SourceID) (sat : SatID)
    (tData : typeValueMap) (s : t) : t := s.

End defs.
End StochasticModel.

(** ** class RandomWalkModel *)

Module RandomWalkModel.
Section defs.
Context `{Externals}.

Record t := mk {
  qprime : float;
  previousTime : CommonTime;
  currentTime : CommonTime
}.

Definition new : t :=
  {| qprime := 90000000000.0;
     previousTime := BEGINNING_OF_TIME;
     currentTime := BEGINNING_OF_TIME |}.

(** [RandomWalkModel(qp, prevTime, currentTime)]: the third argument is
    the constructor parameter named [currentTime]; both members are
    initialised from [prevTime]. *)
Definition new3 (qp : float) (prevTime currentTime_arg : CommonTime) : t :=
  {| qprime := qp;
     previousTime := prevTime;
     currentTime := prevTime |}.

(** The same constructor with the default arguments filled in. *)
Definition new2 (qp : float) (prevTime : CommonTime) : t :=
  new3 qp prevTime BEGINNING_OF_TIME.


Definition setPreviousTime (prevTime : CommonTime) (s : t) : t :=
  {| qprime := qprime s;
     previousTime := prevTime;
     currentTime := currentTime s |}.

Definition setCurrentTime (currTime : CommonTime) (s : t) : t :=
  {| qprime := qprime s;
     previousTime := previousTime s;
     currentTime := currTime |}.

Definition setQprime (qp : float) (s : t) : t :=
  {| qprime := qp;
     previousTime := previousTime s;
     currentTime := currentTime s |}.

(** Inherited from [StochasticModel]. *)
Definition getPhi (s : t) : float * t := (1.0, s).

(** Modelled from the spec: the body of [RandomWalkModel::getQ], which the
    header only declares.  Q is [qprime] times the seconds between the
    two stored epochs.  The class has no member that could hold a
    variance, so the value is formed from the three members. *)
Definition getQ (s : t) : float * t :=
  (qprime s * elapsed (currentTime s) (previousTime s), s).

(** Modelled from the spec: the body of [RandomWalkModel::Prepare], which
    the header only declares.  The epoch pair advances: the epoch that
    was current becomes the previous one and [epoch] the current one.
    The design document advances [previousTime] after Q is computed; with
    Q formed by [getQ] from the members, that step is taken on entry of
    the next [Prepare], which gives the same values to every read. *)
Definition Prepare (epoch : CommonTime) (source : SourceID) (sat : SatID)
    (tData : typeValueMap) (s : t) : t :=
  setCurrentTime epoch (setPreviousTime (currentTime s) s).

End defs.
End RandomWalkModel.

(** ** class WhiteNoiseModel *)

Module WhiteNoiseModel.
Section defs.
Context `{Externals}.

Record t := mk { variance : float }.

Definition new (sigma : float) : t := {| variance := sigma * sigma |}.

(** [WhiteNoiseModel()], with the default argument [sigma = 300000.0]. *)
Definition new0 : t := new 300000.0.

Definition setSigma (sigma : float) (s : t) : t :=
  {| variance := sigma * sigma |}.

Definition getPhi (s : t) : float * t := (0.0, s).

Definition getQ (s : t) : float * t := (variance s, s).

(** Inherited from [StochasticModel]. *)
Definition Prepare (time : CommonTime) (source : SourceID) (sat : SatID)
    (tData : typeValueMap) (s : t) : t := s.

End defs.
End WhiteNoiseModel.

(** ** class PhaseAmbiguityModel *)

Module PhaseAmbiguityModel.
Section defs.
Context `{Externals}.

Record t := mk {
  variance : float;
  cycleSlip : bool;
  watchSatArc : bool;
  csFlagType : TypeID;
  satArcMap : gmap SourceID (gmap SatID float)
}.

Definition new (sigma : float) : t :=
  {| variance := sigma * sigma;
     cycleSlip := false;
     watchSatArc := true;
     csFlagType := CSFlag;
     satArcMap := ∅ |}.

(** [PhaseAmbiguityModel()], with the default argument [sigma = 2.0E4]. *)
Definition new0 : t := new 2.0e4.

Definition setCSFlagType (type : TypeID) (s : t) : t :=
  {| variance := variance s;
     cycleSlip := cycleSlip s;
     watchSatArc := watchSatArc s;
     csFlagType := type;
     satArcMap := satArcMap s |}.

Definition getCSFlagType (s : t) : TypeID * t := (csFlagType s, s).

Definition setSigma (sigma : float) (s : t) : t :=
  {| variance := sigma * sigma;
     cycleSlip := cycleSlip s;
     watchSatArc := watchSatArc s;
     csFlagType := csFlagType s;
     satArcMap := satArcMap s |}.

Definition setCS (cs : bool) (s : t) : t :=
  {| variance := variance s;
     cycleSlip := cs;
     watchSatArc := watchSatArc s;
     csFlagType := csFlagType s;
     satArcMap := satArcMap s |}.

Definition getCS (s : t) : bool * t := (cycleSlip s, s).

Definition setWatchSatArc (watchArc : bool) (s : t) : t :=
  {| variance := variance s;
     cycleSlip := cycleSlip s;
     watchSatArc := watchArc;
     csFlagType := csFlagType s;
     satArcMap := satArcMap s |}.

(** Modelled from the spec: the body of [PhaseAmbiguityModel::getPhi],
    which the header only declares: 0.0 if [cycleSlip] is true, else
    1.0. *)
Definition getPhi (s : t) : float * t :=
  (if cycleSlip s then 0.0 else 1.0, s).

(** Modelled from the spec: the body of [PhaseAmbiguityModel::getQ],
    which the header only declares: [variance] if [cycleSlip] is true,
    else 0.0. *)
Definition getQ (s : t) : float * t :=
  (if cycleSlip s then variance s else 0.0, s).

(** The arc value cached for a (source, satellite) key. *)
Definition cachedArc (source : SourceID) (sat : SatID) (s : t)
    : option float :=
  satArcMap s !! source ≫= (.!! sat).

(** [satArcMap[source][sat] = arc] *)
Definition storeArc (source : SourceID) (sat : SatID) (arc : float)
    (s : t) : t :=
  {| variance := variance s;
     cycleSlip := cycleSlip s;
     watchSatArc := watchSatArc s;
     csFlagType := csFlagType s;
     satArcMap :=
       <[source := <[sat := arc]> (default ∅ (satArcMap s !! source))]>
         (satArcMap s) |}.

(** Modelled from the spec: the body of [PhaseAmbiguityModel::checkCS],
    which the header only declares.  Flag mode reads the field
    [csFlagType] of the satellite's data, and a nonzero value is a slip.
    Arc mode reads the field [satArc], compares it with the value cached
    for the (source, satellite) key, a change being a slip, and stores
    the new value in every case; the first value seen for a key is the
    baseline and no slip.  A field that is absent means no slip. *)
Definition checkCS (source : SourceID) (sat : SatID)
    (data : satTypeValueMap) (s : t) : t :=
  if watchSatArc s then
    match data !! sat ≫= (.!! satArc) with
    | None => setCS false s
    | Some arc =>
        let slip :=
          match cachedArc source sat s with
          | None => false
          | Some last => Double.neqb arc last
          end in
        setCS slip (storeArc source sat arc s)
    end
  else
    match data !! sat ≫= (.!! csFlagType s) with
    | None => setCS false s
    | Some flag => setCS (Double.neqb flag 0.0) s
    end.

Definition Prepare (epoch : CommonTime) (source : SourceID) (sat : SatID)
    (tData : typeValueMap) (s : t) : t :=
  let satData : satTypeValueMap := <[sat := tData]> ∅ in
  checkCS source sat satData s.

(** The caller of §2 of the design document: one [Prepare] per epoch,
    each followed by a read of the slip flag. *)
Fixpoint feed (source : SourceID) (sat : SatID)
    (epochs : list (CommonTime * typeValueMap)) (s : t) : list bool * t :=
  match epochs with
  | [] => ([], s)
  | (epoch, tData) :: rest =>
      let s1 := Prepare epoch source sat tData s in
      let '(cs, s2) := getCS s1 in
      let '(flags, s3) := feed source sat rest s2 in
      (cs :: flags, s3)
  end.

End defs.
End PhaseAmbiguityModel.

(** ** The pattern shared by the per-entity random walks

    [TropoRandomWalkModel], [TropoGradRandomWalkModel],
    [IonoRandomWalkModel], [RecBiasRandomWalkModel],
    [SatBiasRandomWalkModel], [ISBRandomWalkModel] and
    [IFCBRandomWalkModel] are the same class text up to the key type [K] of
    the map and the name of the map member ([tmData], [gmData], [imData],
    [rbData], [sbData], [ISBmData], [IFCBmData]). *)

Module EntityModel.
Section defs.
Context `{Externals} {K : Type} `{Countable K}.

(** [struct tropModelData] and its six copies: the constructor sets
    [previousTime] and default-constructs [currentTime]. *)
Record modelData := mkData {
  previousTime : CommonTime;
  currentTime : CommonTime
}.

Definition modelData_new : modelData :=
  {| previousTime := BEGINNING_OF_TIME; currentTime := CommonTime_new |}.

Record t := mk {
  qprime : float;
  mData : gmap K modelData;
  variance : float
}.

(** The constructors initialise [qprime] only: [variance] starts with
    whatever its storage holds, [variance0]. *)
Definition new (qp variance0 : float) : t :=
  {| qprime := qp; mData := ∅; variance := variance0 |}.

(** [mData[k]]: [std::map::operator[]] yields a fresh record for a key
    that has none. *)
Definition record (k : K) (s : t) : modelData :=
  default modelData_new (mData s !! k).

Definition setPreviousTime (k : K) (prevTime : CommonTime) (s : t) : t :=
  {| qprime := qprime s;
     mData :=
       <[k := {| previousTime := prevTime;
                 currentTime := currentTime (record k s) |}]> (mData s);
     variance := variance s |}.

Definition setCurrentTime (k : K) (currTime : CommonTime) (s : t) : t :=
  {| qprime := qprime s;
     mData :=
       <[k := {| previousTime := previousTime (record k s);
                 currentTime := currTime |}]> (mData s);
     variance := variance s |}.

(** The overload [setQprime(key, qp)], whose body is [qprime = qp]. *)
Definition setQprimeFor (k : K) (qp : float) (s : t) : t :=
  {| qprime := qp; mData := mData s; variance := variance s |}.

Definition getPhi (s : t) : float * t := (1.0, s).

Definition getQ (s : t) : float * t := (variance s, s).

(** Modelled from the spec: the body of [setQprime(double)], which the
    header only declares; there is one [qprime] member to assign. *)
Definition setQprime (qp : float) (s : t) : t :=
  {| qprime := qp; mData := mData s; variance := variance s |}.

Definition setVariance (q : float) (s : t) : t :=
  {| qprime := qprime s; mData := mData s; variance := q |}.

(** Modelled from the spec: the body of [computeQ], which the header only
    declares.  It works on the record of the key, whose [currentTime]
    [Prepare] has just set: an unset [previousTime] is seeded with
    [currentTime]; Q is [qprime] times the elapsed seconds, clamped at
    0; then [previousTime] advances to [currentTime]. *)
Definition computeQ (k : K) (s : t) : t :=
  let r := record k s in
  let prev :=
    if decide (previousTime r = BEGINNING_OF_TIME)
    then currentTime r else previousTime r in
  let q := Double.clamp (qprime s * elapsed (currentTime r) prev) in
  setPreviousTime k (currentTime r) (setVariance q s).

(** Modelled from the spec: the body of [Prepare], which the header only
    declares, for the key [k] that the class selects from the source
    and the satellite: the epoch becomes the current time of the record,
    then [computeQ] runs. *)
Definition Prepare (epoch : CommonTime) (k : K) (s : t) : t :=
  computeQ k (setCurrentTime k epoch s).

(** The epoch from which a [Prepare] at [epoch] measures the elapsed
    time of the key [k]: the recorded previous epoch, or [epoch] itself
    when none is recorded. *)
Definition since (k : K) (epoch : CommonTime) (s : t) : CommonTime :=
  if decide (previousTime (record k s) = BEGINNING_OF_TIME)
  then epoch else previousTime (record k s).

End defs.
#[global] Arguments modelData {_}.
#[global] Arguments t {_} K {_ _}.
End EntityModel.

(** ** class TropoRandomWalkModel *)

Module TropoRandomWalkModel.
Section defs.
Context `{Externals}.

Definition t : Type := EntityModel.t SourceID.

(** [TropoRandomWalkModel() : qprime(5.0e-8)] *)
Definition new (variance0 : float) : t := EntityModel.new 5.0e-8 variance0.

Definition qprime (s : t) : float := EntityModel.qprime s.

Definition tmData (s : t) : gmap SourceID EntityModel.modelData :=
  EntityModel.mData s.

Definition variance (s : t) : float := EntityModel.variance s.

Definition setPreviousTime (source : SourceID) (prevTime : CommonTime)
    (s : t) : t :=
  EntityModel.setPreviousTime source prevTime s.

Definition setCurrentTime (source : SourceID) (currTime : CommonTime)
    (s : t) : t :=
  EntityModel.setCurrentTime source currTime s.

(** Modelled from the spec: the body of
    [TropoRandomWalkModel::setQprime(double)], which the header only
    declares. *)
Definition setQprime (qp : float) (s : t) : t :=
  EntityModel.setQprime qp s.

Definition setQprime_source (source : SourceID) (qp : float) (s : t) : t :=
  EntityModel.setQprimeFor source qp s.

(** Inherited from [StochasticModel]. *)
Definition getPhi (s : t) : float * t := EntityModel.getPhi s.

Definition getQ (s : t) : float * t := EntityModel.getQ s.

(** Modelled from the spec: the body of [TropoRandomWalkModel::computeQ],
    which the header only declares. *)
Definition computeQ (sat : SatID) (data : typeValueMap)
    (source : SourceID) (s : t) : t :=
  EntityModel.computeQ source s.

(** Modelled from the spec: the body of [TropoRandomWalkModel::Prepare],
    which the header only declares: the epoch becomes the current time of
    the entity's record, then [computeQ] runs. *)
Definition Prepare (epoch : CommonTime) (source : SourceID) (sat : SatID)
    (tData : typeValueMap) (s : t) : t :=
  computeQ sat tData source (setCurrentTime source epoch s).

End defs.
End TropoRandomWalkModel.

(** ** class TropoGradRandomWalkModel *)

Module TropoGradRandomWalkModel.
Section defs.
Context `{Externals}.

Definition t : Type := EntityModel.t SourceID.

(** [TropoGradRandomWalkModel() : qprime(5e-10)] *)
Definition new (variance0 : float) : t := EntityModel.new 5e-10 variance0.

Definition qprime (s : t) : float := EntityModel.qprime s.

Definition gmData (s : t) : gmap SourceID EntityModel.modelData :=
  EntityModel.mData s.

Definition variance (s : t) : float := EntityModel.variance s.

Definition setPreviousTime (source : SourceID) (prevTime : CommonTime)
    (s : t) : t :=
  EntityModel.setPreviousTime source prevTime s.

Definition setCurrentTime (source : SourceID) (currTime : CommonTime)
    (s : t) : t :=
  EntityModel.setCurrentTime source currTime s.

(** Modelled from the spec: the body of
    [TropoGradRandomWalkModel::setQprime(double)], which the header only
    declares. *)
Definition setQprime (qp : float) (s : t) : t :=
  EntityModel.setQprime qp s.

Definition setQprime_source (source : SourceID) (qp : float) (s : t) : t :=
  EntityModel.setQprimeFor source qp s.

(** Inherited from [StochasticModel]. *)
Definition getPhi (s : t) : float * t := EntityModel.getPhi s.

Definition getQ (s : t) : float * t := EntityModel.getQ s.

(** Modelled from the spec: the body of [TropoGradRandomWalkModel::computeQ],
    which the header only declares. *)
Definition computeQ (sat : SatID) (data : typeValueMap)
    (source : SourceID) (s : t) : t :=
  EntityModel.computeQ source s.

(** Modelled from the spec: the body of [TropoGradRandomWalkModel::Prepare],
    which the header only declares: the epoch becomes the current time of
    the entity's record, then [computeQ] runs. *)
Definition Prepare (epoch : CommonTime) (source : SourceID) (sat : SatID)
    (tData : typeValueMap) (s : t) : t :=
  computeQ sat tData source (setCurrentTime source epoch s).

End defs.
End TropoGradRandomWalkModel.

(** ** class IonoRandomWalkModel *)

Module IonoRandomWalkModel.
Section defs.
Context `{Externals}.

(** The members [qprime], [imData] and [variance] are those of the shared
    pattern, kept in [rw]. *)
Record t := mk {
  insertInterrupt : bool;
  sampling : float;
  tolerance : float;
  initialTime : CommonTime;
  rw : EntityModel.t SatID
}.

Definition new (variance0 : float) : t :=
  {| insertInterrupt := true;
     sampling := 7200.0;
     tolerance := 0.5;
     initialTime := BEGINNING_OF_TIME;
     rw := EntityModel.new 1.0e-3 variance0 |}.

Definition qprime (s : t) : float := EntityModel.qprime (rw s).

Definition imData (s : t) : gmap SatID EntityModel.modelData :=
  EntityModel.mData (rw s).

Definition variance (s : t) : float := EntityModel.variance (rw s).

Definition withRw (f : EntityModel.t SatID -> EntityModel.t SatID)
    (s : t) : t :=
  {| insertInterrupt := insertInterrupt s;
     sampling := sampling s;
     tolerance := tolerance s;
     initialTime := initialTime s;
     rw := f (rw s) |}.

Definition setPreviousTime (sat : SatID) (prevTime : CommonTime)
    (s : t) : t :=
  withRw (EntityModel.setPreviousTime sat prevTime) s.

Definition setCurrentTime (sat : SatID) (currTime : CommonTime)
    (s : t) : t :=
  withRw (EntityModel.setCurrentTime sat currTime) s.

(** Modelled from the spec: the body of
    [IonoRandomWalkModel::setQprime(double)], which the header only
    declares. *)
Definition setQprime (qp : float) (s : t) : t :=
  withRw (EntityModel.setQprime qp) s.

Definition setQprime_sat (sat : SatID) (qp : float) (s : t) : t :=
  withRw (EntityModel.setQprimeFor sat qp) s.

Definition setInitialEpoch (initialEpoch : CommonTime) (s : t) : t :=
  {| insertInterrupt := insertInterrupt s;
     sampling := sampling s;
     tolerance := tolerance s;
     initialTime := initialEpoch;
     rw := rw s |}.

Definition setInsertInterrupt (insert : bool) (s : t) : t :=
  {| insertInterrupt := insert;
     sampling := sampling s;
     tolerance := tolerance s;
     initialTime := initialTime s;
     rw := rw s |}.

(** Inherited from [StochasticModel]. *)
Definition getPhi (s : t) : float * t := (1.0, s).

Definition getQ (s : t) : float * t := (variance s, s).

(** Modelled from the spec: the body of [IonoRandomWalkModel::computeQ],
    which the header only declares. *)
Definition computeQ (sat : SatID) (data : typeValueMap)
    (source : SourceID) (s : t) : t :=
  withRw (EntityModel.computeQ sat) s.

(** Modelled from the spec: the test of the interrupt schedule, part of
    the body of [Prepare] that the header only declares.  The seconds
    from [initialTime] to the epoch lie within [tolerance] of an integer
    multiple of [sampling]. *)
Definition onSchedule (epoch : CommonTime) (s : t) : bool :=
  let dt := elapsed epoch (initialTime s) in
  abs (dt - Double.rint (dt / sampling s) * sampling s) <=? tolerance s.

(** Modelled from the spec: the interrupt rule of the same body, which
    applies when [insertInterrupt] is enabled and the epoch is on the
    schedule. *)
Definition atInterrupt (epoch : CommonTime) (s : t) : bool :=
  insertInterrupt s && onSchedule epoch s.

(** Modelled from the spec: the body of [IonoRandomWalkModel::Prepare],
    which the header only declares.  The interrupt rule comes first: at
    an interrupt the large variance is installed and the elapsed-time
    path is not run; otherwise the epoch is recorded for the satellite
    and [computeQ] runs. *)
Definition Prepare (epoch : CommonTime) (source : SourceID) (sat : SatID)
    (tData : typeValueMap) (s : t) : t :=
  if atInterrupt epoch s
  then withRw (EntityModel.setVariance interruptVariance) s
  else computeQ sat tData source (setCurrentTime sat epoch s).

End defs.
End IonoRandomWalkModel.

(** ** class RecBiasRandomWalkModel *)

Module RecBiasRandomWalkModel.
Section defs.
Context `{Externals}.

Definition t : Type := EntityModel.t SourceID.

(** [RecBiasRandomWalkModel() : qprime(1.0e-4)] *)
Definition new (variance0 : float) : t := EntityModel.new 1.0e-4 variance0.

Definition qprime (s : t) : float := EntityModel.qprime s.

Definition rbData (s : t) : gmap SourceID EntityModel.modelData :=
  EntityModel.mData s.

Definition variance (s : t) : float := EntityModel.variance s.

Definition setPreviousTime (source : SourceID) (prevTime : CommonTime)
    (s : t) : t :=
  EntityModel.setPreviousTime source prevTime s.

Definition setCurrentTime (source : SourceID) (currTime : CommonTime)
    (s : t) : t :=
  EntityModel.setCurrentTime source currTime s.

(** Modelled from the spec: the body of
    [RecBiasRandomWalkModel::setQprime(double)], which the header only
    declares. *)
Definition setQprime (qp : float) (s : t) : t :=
  EntityModel.setQprime qp s.

Definition setQprime_source (source : SourceID) (qp : float) (s : t) : t :=
  EntityModel.setQprimeFor source qp s.

(** Inherited from [StochasticModel]. *)
Definition getPhi (s : t) : float * t := EntityModel.getPhi s.

Definition getQ (s : t) : float * t := EntityModel.getQ s.

(** Modelled from the spec: the body of [RecBiasRandomWalkModel::computeQ],
    which the header only declares. *)
Definition computeQ (sat : SatID) (data : typeValueMap)
    (source : SourceID) (s : t) : t :=
  EntityModel.computeQ source s.

(** Modelled from the spec: the body of [RecBiasRandomWalkModel::Prepare],
    which the header only declares: the epoch becomes the current time of
    the entity's record, then [computeQ] runs. *)
Definition Prepare (epoch : CommonTime) (source : SourceID) (sat : SatID)
    (tData : typeValueMap) (s : t) : t :=
  computeQ sat tData source (setCurrentTime source epoch s).

End defs.
End RecBiasRandomWalkModel.

(** ** class SatBiasRandomWalkModel *)

Module SatBiasRandomWalkModel.
Section defs.
Context `{Externals}.

Definition t : Type := EntityModel.t SatID.

(** [SatBiasRandomWalkModel() : qprime(3e-6)] *)
Definition new (variance0 : float) : t := EntityModel.new 3e-6 variance0.

Definition qprime (s : t) : float := EntityModel.qprime s.

Definition sbData (s : t) : gmap SatID EntityModel.modelData :=
  EntityModel.mData s.

Definition variance (s : t) : float := EntityModel.variance s.

Definition setPreviousTime (sat : SatID) (prevTime : CommonTime)
    (s : t) : t :=
  EntityModel.setPreviousTime sat prevTime s.

Definition setCurrentTime (sat : SatID) (currTime : CommonTime)
    (s : t) : t :=
  EntityModel.setCurrentTime sat currTime s.

(** Modelled from the spec: the body of
    [SatBiasRandomWalkModel::setQprime(double)], which the header only
    declares. *)
Definition setQprime (qp : float) (s : t) : t :=
  EntityModel.setQprime qp s.

Definition setQprime_sat (sat : SatID) (qp : float) (s : t) : t :=
  EntityModel.setQprimeFor sat qp s.

(** Inherited from [StochasticModel]. *)
Definition getPhi (s : t) : float * t := EntityModel.getPhi s.

Definition getQ (s : t) : float * t := EntityModel.getQ s.

(** Modelled from the spec: the body of [SatBiasRandomWalkModel::computeQ],
    which the header only declares. *)
Definition computeQ (sat : SatID) (data : typeValueMap)
    (source : SourceID) (s : t) : t :=
  EntityModel.computeQ sat s.

(** Modelled from the spec: the body of [SatBiasRandomWalkModel::Prepare],
    which the header only declares: the epoch becomes the current time of
    the entity's record, then [computeQ] runs. *)
Definition Prepare (epoch : CommonTime) (source : SourceID) (sat : SatID)
    (tData : typeValueMap) (s : t) : t :=
  computeQ sat tData source (setCurrentTime sat epoch s).

End defs.
End SatBiasRandomWalkModel.

(** ** class ISBRandomWalkModel *)

Module ISBRandomWalkModel.
Section defs.
Context `{Externals}.

Definition t : Type := EntityModel.t SourceID.

(** [ISBRandomWalkModel() : qprime(9.0e-4)] *)
Definition new (variance0 : float) : t := EntityModel.new 9.0e-4 variance0.

Definition qprime (s : t) : float := EntityModel.qprime s.

Definition ISBmData (s : t) : gmap SourceID EntityModel.modelData :=
  EntityModel.mData s.

Definition variance (s : t) : float := EntityModel.variance s.

Definition setPreviousTime (source : SourceID) (prevTime : CommonTime)
    (s : t) : t :=
  EntityModel.setPreviousTime source prevTime s.

Definition setCurrentTime (source : SourceID) (currTime : CommonTime)
    (s : t) : t :=
  EntityModel.setCurrentTime source currTime s.

(** Modelled from the spec: the body of
    [ISBRandomWalkModel::setQprime(double)], which the header only
    declares. *)
Definition setQprime (qp : float) (s : t) : t :=
  EntityModel.setQprime qp s.

Definition setQprime_source (source : SourceID) (qp : float) (s : t) : t :=
  EntityModel.setQprimeFor source qp s.

(** Inherited from [StochasticModel]. *)
Definition getPhi (s : t) : float * t := EntityModel.getPhi s.

Definition getQ (s : t) : float * t := EntityModel.getQ s.

(** Modelled from the spec: the body of [ISBRandomWalkModel::computeQ],
    which the header only declares. *)
Definition computeQ (sat : SatID) (data : typeValueMap)
    (source : SourceID) (s : t) : t :=
  EntityModel.computeQ source s.

(** Modelled from the spec: the body of [ISBRandomWalkModel::Prepare],
    which the header only declares: the epoch becomes the current time of
    the entity's record, then [computeQ] runs. *)
Definition Prepare (epoch : CommonTime) (source : SourceID) (sat : SatID)
    (tData : typeValueMap) (s : t) : t :=
  computeQ sat tData source (setCurrentTime source epoch s).

End defs.
End ISBRandomWalkModel.

(** ** class IFCBRandomWalkModel *)

Module IFCBRandomWalkModel.
Section defs.
Context `{Externals}.

(** [IFCBmData] is [std::map<SourceID, std::map<SatID, IFCBData>>] and is
    only ever indexed as [IFCBmData[source][sat]]: a map from the pair. *)
Definition t : Type := EntityModel.t (SourceID * SatID).

(** [IFCBRandomWalkModel() : qprime(1e-4)] *)
Definition new (variance0 : float) : t := EntityModel.new 1e-4 variance0.

Definition qprime (s : t) : float := EntityModel.qprime s.

Definition IFCBmData (s : t) : gmap (SourceID * SatID) EntityModel.modelData :=
  EntityModel.mData s.

Definition variance (s : t) : float := EntityModel.variance s.

Definition setPreviousTime (source : SourceID) (sat : SatID)
    (prevTime : CommonTime) (s : t) : t :=
  EntityModel.setPreviousTime (source, sat) prevTime s.

Definition setCurrentTime (source : SourceID) (sat : SatID)
    (currTime : CommonTime) (s : t) : t :=
  EntityModel.setCurrentTime (source, sat) currTime s.

(** Modelled from the spec: the body of
    [IFCBRandomWalkModel::setQprime(double)], which the header only
    declares. *)
Definition setQprime (qp : float) (s : t) : t :=
  EntityModel.setQprime qp s.

Definition setQprime_source_sat (source : SourceID) (sat : SatID)
    (qp : float) (s : t) : t :=
  EntityModel.setQprimeFor (source, sat) qp s.

(** Inherited from [StochasticModel]. *)
Definition getPhi (s : t) : float * t := EntityModel.getPhi s.

Definition getQ (s : t) : float * t := EntityModel.getQ s.

(** Modelled from the spec: the body of [IFCBRandomWalkModel::computeQ],
    which the header only declares. *)
Definition computeQ (sat : SatID) (data : typeValueMap)
    (source : SourceID) (s : t) : t :=
  EntityModel.computeQ (source, sat) s.

(** Modelled from the spec: the body of [IFCBRandomWalkModel::Prepare],
    which the header only declares: the epoch becomes the current time of
    the entity's record, then [computeQ] runs. *)
Definition Prepare (epoch : CommonTime) (source : SourceID) (sat : SatID)
    (tData : typeValueMap) (s : t) : t :=
  computeQ sat tData source (setCurrentTime source sat epoch s).

End defs.
End IFCBRandomWalkModel.

(** ** The model interface

    The estimator holds a [StochasticModel*] and calls the three virtual
    methods; [Model] is the object behind the pointer, one constructor per
    class of the header. *)

Section Interface.
Context `{Externals}.

Inductive Model :=
| Constant (s : StochasticModel.t)
| RandomWalk (s : RandomWalkModel.t)
| WhiteNoise (s : WhiteNoiseModel.t)
| PhaseAmbiguity (s : PhaseAmbiguityModel.t)
| TropoRandomWalk (s : TropoRandomWalkModel.t)
| TropoGradRandomWalk (s : TropoGradRandomWalkModel.t)
| IonoRandomWalk (s : IonoRandomWalkModel.t)
| RecBiasRandomWalk (s : RecBiasRandomWalkModel.t)
| SatBiasRandomWalk (s : SatBiasRandomWalkModel.t)
| ISBRandomWalk (s : ISBRandomWalkModel.t)
| IFCBRandomWalk (s : IFCBRandomWalkModel.t).

Definition getPhi (m : Model) : float * Model :=
  match m with
  | Constant s => prod_map id Constant (StochasticModel.getPhi s)
  | RandomWalk s => prod_map id RandomWalk (RandomWalkModel.getPhi s)
  | WhiteNoise s => prod_map id WhiteNoise (WhiteNoiseModel.getPhi s)
  | PhaseAmbiguity s =>
      prod_map id PhaseAmbiguity (PhaseAmbiguityModel.getPhi s)
  | TropoRandomWalk s =>
      prod_map id TropoRandomWalk (TropoRandomWalkModel.getPhi s)
  | TropoGradRandomWalk s =>
      prod_map id TropoGradRandomWalk (TropoGradRandomWalkModel.getPhi s)
  | IonoRandomWalk s =>
      prod_map id IonoRandomWalk (IonoRandomWalkModel.getPhi s)
  | RecBiasRandomWalk s =>
      prod_map id RecBiasRandomWalk (RecBiasRandomWalkModel.getPhi s)
  | SatBiasRandomWalk s =>
      prod_map id SatBiasRandomWalk (SatBiasRandomWalkModel.getPhi s)
  | ISBRandomWalk s =>
      prod_map id ISBRandomWalk (ISBRandomWalkModel.getPhi s)
  | IFCBRandomWalk s =>
      prod_map id IFCBRandomWalk (IFCBRandomWalkModel.getPhi s)
  end.

Definition getQ (m : Model) : float * Model :=
  match m with
  | Constant s => prod_map id Constant (StochasticModel.getQ s)
  | RandomWalk s => prod_map id RandomWalk (RandomWalkModel.getQ s)
  | WhiteNoise s => prod_map id WhiteNoise (WhiteNoiseModel.getQ s)
  | PhaseAmbiguity s =>
      prod_map id PhaseAmbiguity (PhaseAmbiguityModel.getQ s)
  | TropoRandomWalk s =>
      prod_map id TropoRandomWalk (TropoRandomWalkModel.getQ s)
  | TropoGradRandomWalk s =>
      prod_map id TropoGradRandomWalk (TropoGradRandomWalkModel.getQ s)
  | IonoRandomWalk s =>
      prod_map id IonoRandomWalk (IonoRandomWalkModel.getQ s)
  | RecBiasRandomWalk s =>
      prod_map id RecBiasRandomWalk (RecBiasRandomWalkModel.getQ s)
  | SatBiasRandomWalk s =>
      prod_map id SatBiasRandomWalk (SatBiasRandomWalkModel.getQ s)
  | ISBRandomWalk s =>
      prod_map id ISBRandomWalk (ISBRandomWalkModel.getQ s)
  | IFCBRandomWalk s =>
      prod_map id IFCBRandomWalk (IFCBRandomWalkModel.getQ s)
  end.

Definition Prepare (epoch : CommonTime) (source : SourceID) (sat : SatID)
    (tData : typeValueMap) (m : Model) : Model :=
  match m with
  | Constant s => Constant (StochasticModel.Prepare epoch source sat tData s)
  | RandomWalk s =>
      RandomWalk (RandomWalkModel.Prepare epoch source sat tData s)
  | WhiteNoise s =>
      WhiteNoise (WhiteNoiseModel.Prepare epoch source sat tData s)
  | PhaseAmbiguity s =>
      PhaseAmbiguity (PhaseAmbiguityModel.Prepare epoch source sat tData s)
  | TropoRandomWalk s =>
      TropoRandomWalk (TropoRandomWalkModel.Prepare epoch source sat tData s)
  | TropoGradRandomWalk s =>
      TropoGradRandomWalk
        (TropoGradRandomWalkModel.Prepare epoch source sat tData s)
  | IonoRandomWalk s =>
      IonoRandomWalk (IonoRandomWalkModel.Prepare epoch source sat tData s)
  | RecBiasRandomWalk s =>
      RecBiasRandomWalk
        (RecBiasRandomWalkModel.Prepare epoch source sat tData s)
  | SatBiasRandomWalk s =>
      SatBiasRandomWalk
        (SatBiasRandomWalkModel.Prepare epoch source sat tData s)
  | ISBRandomWalk s =>
      ISBRandomWalk (ISBRandomWalkModel.Prepare epoch source sat tData s)
  | IFCBRandomWalk s =>
      IFCBRandomWalk (IFCBRandomWalkModel.Prepare epoch source sat tData s)
  end.

(** One call of the estimator: the arguments of a [Prepare]. *)
Record Call := mkCall {
  callEpoch : CommonTime;
  callSource : SourceID;
  callSat : SatID;
  callData : typeValueMap
}.

Definition prepareCall (m : Model) (c : Call) : Model :=
  Prepare (callEpoch c) (callSource c) (callSat c) (callData c) m.

(** A history of [Prepare] calls, oldest first. *)
Definition prepareAll (calls : list Call) (m : Model) : Model :=
  foldl prepareCall m calls.

(** [n] rounds of [getPhi(); getQ();] with nothing in between. *)
Fixpoint readMany (n : nat) (m : Model) : list (float * float) * Model :=
  match n with
  | O => ([], m)
  | S n' =>
      let '(phi, m1) := getPhi m in
      let '(q, m2) := getQ m1 in
      let '(rest, m3) := readMany n' m2 in
      ((phi, q) :: rest, m3)
  end.

(** The spectral density of a member of the random-walk family. *)
Definition qprimeOf (m : Model) : option float :=
  match m with
  | RandomWalk s => Some (RandomWalkModel.qprime s)
  | TropoRandomWalk s => Some (TropoRandomWalkModel.qprime s)
  | TropoGradRandomWalk s => Some (TropoGradRandomWalkModel.qprime s)
  | IonoRandomWalk s => Some (IonoRandomWalkModel.qprime s)
  | RecBiasRandomWalk s => Some (RecBiasRandomWalkModel.qprime s)
  | SatBiasRandomWalk s => Some (SatBiasRandomWalkModel.qprime s)
  | ISBRandomWalk s => Some (ISBRandomWalkModel.qprime s)
  | IFCBRandomWalk s => Some (IFCBRandomWalkModel.qprime s)
  | Constant _ | WhiteNoise _ | PhaseAmbiguity _ => None
  end.

(** The seven classes that keep one epoch record per entity. *)
Definition perEntity (m : Model) : bool :=
  match m with
  | TropoRandomWalk _ | TropoGradRandomWalk _ | IonoRandomWalk _
  | RecBiasRandomWalk _ | SatBiasRandomWalk _ | ISBRandomWalk _
  | IFCBRandomWalk _ => true
  | Constant _ | RandomWalk _ | WhiteNoise _ | PhaseAmbiguity _ => false
  end.




(** Whether a [Prepare] at [epoch] would take the interrupt branch. *)
Definition interrupted (epoch : CommonTime) (m : Model) : bool :=
  match m with
  | IonoRandomWalk s => IonoRandomWalkModel.atInterrupt epoch s
  | _ => false
  end.

End Interface.

(** ** The invariant [variance >= 0] and NaN

    A comparison with NaN is false, so [varianceNotNegative] holds of a
    NaN variance and [varianceAtLeastZero] does not. *)

Section Variance.
Context `{Externals}.



End Variance.

(** ** A concrete choice of the external types

    Epochs are whole seconds counted from [BEGINNING_OF_TIME]; stations,
    satellites and data fields are numbered. *)

Module Sample.

Definition externals : Externals :=
  {| CommonTime := Z;
     BEGINNING_OF_TIME := 0%Z;
     CommonTime_new := 0%Z;
     elapsed := fun a b => Double.of_Z (a - b);
     SourceID := nat;
     SatID := nat;
     TypeID := nat;
     CSFlag := 0%nat;
     satArc := 1%nat;
     interruptVariance := 9.0e10 |}.

(** The epoch [z] seconds after [BEGINNING_OF_TIME]. *)
Definition epoch (z : Z) : @CommonTime externals := z.

Definition station (n : nat) : @SourceID externals := n.

Definition satellite (n : nat) : @SatID externals := n.

(** An epoch's data with no field set. *)
Definition noData : gmap (@TypeID externals) float := ∅.

(** An epoch's data with the arc counter set. *)
Definition arcData (arc : float) : gmap (@TypeID externals) float :=
  <[@satArc externals := arc]> noData.

(** The call [Prepare] for station 0 and satellite 3 at the epoch [z],
    with no data. *)
Definition call (z : Z) : @Call externals :=
  {| callEpoch := epoch z;
     callSource := station 0;
     callSat := satellite 3;
     callData := noData |}.

Definition prepareAt (z : Z) (m : @Model externals) : @Model externals :=
  prepareCall m (call z).

Definition ionoPrepareAt (z : Z) (s : @IonoRandomWalkModel.t externals)
    : @IonoRandomWalkModel.t externals :=
  IonoRandomWalkModel.Prepare (epoch z) (station 0) (satellite 3) noData s.

End Sample.

(** ** The interrupt schedule in whole numbers

    Elapsed times that are a whole number [q] of quarter seconds, which
    binary64 holds exactly, and the default schedule: a multiple of
    7200 s is a multiple of 28800 quarter seconds, and 0.5 s is two of
    them. *)

Module Schedule.
Section defs.
Context `{Externals}.








End defs.
End Schedule.

(** ** Sequences of setter calls on a per-entity class

    The three inline setters that every per-entity class has:
    [setPreviousTime(key, t)], [setCurrentTime(key, t)] and
    [setQprime(key, qp)]. *)

Module EntitySetters.
Section defs.
Context `{Externals} {K : Type} `{Countable K}.

Inductive setter :=
| SetPreviousTime (k : K) (prevTime : CommonTime)
| SetCurrentTime (k : K) (currTime : CommonTime)
| SetQprimeFor (k : K) (qp : float).

Definition applySetter (s : EntityModel.t K) (c : setter)
    : EntityModel.t K :=
  match c with
  | SetPreviousTime k prevTime => EntityModel.setPreviousTime k prevTime s
  | SetCurrentTime k currTime => EntityModel.setCurrentTime k currTime s
  | SetQprimeFor k qp => EntityModel.setQprimeFor k qp s
  end.

(** The calls of [cs] in order, oldest first. *)
Definition applySetters (cs : list setter) (s : EntityModel.t K)
    : EntityModel.t K :=
  foldl applySetter s cs.

(** The keys that the time setters of [cs] index the map with. *)
Fixpoint indexed (cs : list setter) : gset K :=
  match cs with
  | [] => ∅
  | SetPreviousTime k _ :: rest | SetCurrentTime k _ :: rest =>
      {[k]} ∪ indexed rest
  | SetQprimeFor _ _ :: rest => indexed rest
  end.

End defs.
#[global] Arguments setter {_} K.
End EntitySetters.

(** ** [IFCBmData] with its two levels

    [std::map<SourceID, std::map<SatID, IFCBData>>], indexed as
    [IFCBmData[source][sat]]: the first [operator[]] yields the inner map
    of the source (an empty one if the source has none), the second the
    record of the satellite in it. *)

Module IFCBTwoLevel.
Section defs.
Context `{Externals}.

Record t := mk {
  qprime : float;
  IFCBmData : gmap SourceID (gmap SatID EntityModel.modelData);
  variance : float
}.

Definition new (variance0 : float) : t :=
  {| qprime := 1e-4; IFCBmData := ∅; variance := variance0 |}.

(** [IFCBmData[source]] *)
Definition inner (source : SourceID) (s : t)
    : gmap SatID EntityModel.modelData :=
  default ∅ (IFCBmData s !! source).

(** [IFCBmData[source][sat]] *)
Definition record (source : SourceID) (sat : SatID) (s : t)
    : EntityModel.modelData :=
  default EntityModel.modelData_new (inner source s !! sat).

Definition setPreviousTime (source : SourceID) (sat : SatID)
    (prevTime : CommonTime) (s : t) : t :=
  {| qprime := qprime s;
     IFCBmData :=
       <[source :=
           <[sat := {| EntityModel.previousTime := prevTime;
                       EntityModel.currentTime :=
                         EntityModel.currentTime (record source sat s) |}]>
             (inner source s)]> (IFCBmData s);
     variance := variance s |}.

Definition setCurrentTime (source : SourceID) (sat : SatID)
    (currTime : CommonTime) (s : t) : t :=
  {| qprime := qprime s;
     IFCBmData :=
       <[source :=
           <[sat := {| EntityModel.previousTime :=
                         EntityModel.previousTime (record source sat s);
                       EntityModel.currentTime := currTime |}]>
             (inner source s)]> (IFCBmData s);
     variance := variance s |}.

Definition setQprime_source_sat (source : SourceID) (sat : SatID)
    (qp : float) (s : t) : t :=
  {| qprime := qp; IFCBmData := IFCBmData s; variance := variance s |}.

Definition getQ (s : t) : float * t := (variance s, s).

(** The same object with the map read as a map from the pair. *)
Definition flatten (s : t) : IFCBRandomWalkModel.t :=
  {| EntityModel.qprime := qprime s;
     EntityModel.mData :=
       map_uncurry (M1 := gmap SourceID) (M2 := gmap SatID)
         (M12 := gmap (SourceID * SatID)) (IFCBmData s);
     EntityModel.variance := variance s |}.

End defs.
End IFCBTwoLevel.

(** ** Sequences of calls on an [IonoRandomWalkModel]

    One constructor per public method whose body is in the header;
    [getPhi] is the inherited one. *)

Module IonoCalls.
Section defs.
Context `{Externals}.

Inductive call :=
| SetPreviousTime (sat : SatID) (prevTime : CommonTime)
| SetCurrentTime (sat : SatID) (currTime : CommonTime)
| SetQprimeSat (sat : SatID) (qp : float)
| SetInitialEpoch (initialEpoch : CommonTime)
| SetInsertInterrupt (insert : bool)
| GetPhi
| GetQ.

Definition applyCall (s : IonoRandomWalkModel.t) (c : call)
    : IonoRandomWalkModel.t :=
  match c with
  | SetPreviousTime sat prevTime =>
      IonoRandomWalkModel.setPreviousTime sat prevTime s
  | SetCurrentTime sat currTime =>
      IonoRandomWalkModel.setCurrentTime sat currTime s
  | SetQprimeSat sat qp => IonoRandomWalkModel.setQprime_sat sat qp s
  | SetInitialEpoch initialEpoch =>
      IonoRandomWalkModel.setInitialEpoch initialEpoch s
  | SetInsertInterrupt insert =>
      IonoRandomWalkModel.setInsertInterrupt insert s
  | GetPhi => snd (IonoRandomWalkModel.getPhi s)
  | GetQ => snd (IonoRandomWalkModel.getQ s)
  end.

Definition applyCalls (cs : list call) (s : IonoRandomWalkModel.t)
    : IonoRandomWalkModel.t :=
  foldl applyCall s cs.

(** The value that the calls to [setInsertInterrupt] of [cs] leave, from
    the value [b] before the calls. *)
Fixpoint lastInsertInterrupt (b : bool) (cs : list call) : bool :=
  match cs with
  | [] => b
  | SetInsertInterrupt insert :: rest => lastInsertInterrupt insert rest
  | _ :: rest => lastInsertInterrupt b rest
  end.

(** The same for [setInitialEpoch]. *)
Fixpoint lastInitialEpoch (e : CommonTime) (cs : list call) : CommonTime :=
  match cs with
  | [] => e
  | SetInitialEpoch initialEpoch :: rest => lastInitialEpoch initialEpoch rest
  | _ :: rest => lastInitialEpoch e rest
  end.

End defs.
End IonoCalls.

(** ** Sequences of setter calls on a [PhaseAmbiguityModel]

    The four inline setters of the class. *)

Module PhaseSetters.
Section defs.
Context `{Externals}.

Inductive setter :=
| SetCSFlagType (type : TypeID)
| SetSigma (sigma : float)
| SetCS (cs : bool)
| SetWatchSatArc (watchArc : bool).

Definition applySetter (s : PhaseAmbiguityModel.t) (c : setter)
    : PhaseAmbiguityModel.t :=
  match c with
  | SetCSFlagType type => PhaseAmbiguityModel.setCSFlagType type s
  | SetSigma sigma => PhaseAmbiguityModel.setSigma sigma s
  | SetCS cs => PhaseAmbiguityModel.setCS cs s
  | SetWatchSatArc watchArc => PhaseAmbiguityModel.setWatchSatArc watchArc s
  end.

Definition applySetters (cs : list setter) (s : PhaseAmbiguityModel.t)
    : PhaseAmbiguityModel.t :=
  foldl applySetter s cs.

(** The members as the calls of [cs] leave them, from the values before
    the calls. *)
Fixpoint lastCS (b : bool) (cs : list setter) : bool :=
  match cs with
  | [] => b
  | SetCS cs' :: rest => lastCS cs' rest
  | _ :: rest => lastCS b rest
  end.

Fixpoint lastWatchSatArc (b : bool) (cs : list setter) : bool :=
  match cs with
  | [] => b
  | SetWatchSatArc watchArc :: rest => lastWatchSatArc watchArc rest
  | _ :: rest => lastWatchSatArc b rest
  end.

Fixpoint lastVariance (v : float) (cs : list setter) : float :=
  match cs with
  | [] => v
  | SetSigma sigma :: rest => lastVariance (sigma * sigma) rest
  | _ :: rest => lastVariance v rest
  end.

Fixpoint lastCSFlagType (ty : TypeID) (cs : list setter) : TypeID :=
  match cs with
  | [] => ty
  | SetCSFlagType type :: rest => lastCSFlagType type rest
  | _ :: rest => lastCSFlagType ty rest
  end.

End defs.
End PhaseSetters.

(** * Facts about [double] *)

Section DoubleFacts.

Lemma negative_spec x : Double.negative x = Double.SFnegative (Prim2SF x).
Proof.
  unfold Double.negative. rewrite FloatAxioms.ltb_spec.
  change (Prim2SF 0) with (S754_zero false).
  destruct (Prim2SF x) as [[]|[]| |[] m e]; reflexivity.
Qed.

Lemma binary_round_aux_negative prec emax s m e l :
  Double.SFnegative (binary_round_aux prec emax s m e l) = true -> s = true.
Proof.
  unfold binary_round_aux.
  destruct (shr_fexp prec emax m e l) as [mrs' e'].
  destruct (shr_fexp prec emax _ e' loc_Exact) as [mrs'' e''].
  destruct (shr_m mrs''); simpl; try discriminate; try tauto.
  destruct (Z.leb e'' _); simpl; tauto.
Qed.

(** A product is below zero only if exactly one factor is. *)
Lemma SFmul_negative prec emax x y :
  Double.SFnegative (SFmul prec emax x y) = true ->
  Double.SFnegative x <> Double.SFnegative y.
Proof.
  destruct x as [sx|sx| |sx mx ex], y as [sy|sy| |sy my ey]; simpl;
    try discriminate; try (destruct sx, sy; simpl; congruence).
  intros Hn%binary_round_aux_negative.
  destruct sx, sy; simpl in *; congruence.
Qed.

Lemma mul_negative a b :
  Double.negative (a * b) = true -> Double.negative a <> Double.negative b.
Proof.
  rewrite !negative_spec, FloatAxioms.mul_spec. apply SFmul_negative.
Qed.


Lemma mul_not_negative a b :
  Double.negative a = false -> Double.negative b = false ->
  Double.negative (a * b) = false.
Proof.
  intros Ha Hb. destruct (Double.negative (a * b)) eqn:E; [|reflexivity].
  apply mul_negative in E. congruence.
Qed.

Lemma nonneg_not_negative a : (0 <=? a) = true -> Double.negative a = false.
Proof.
  rewrite negative_spec, FloatAxioms.leb_spec.
  change (Prim2SF 0) with (S754_zero false).
  destruct (Prim2SF a) as [[]|[]| |[] m e]; cbv; congruence.
Qed.

Lemma pos_not_negative a : (0 <? a) = true -> Double.negative a = false.
Proof.
  rewrite negative_spec, FloatAxioms.ltb_spec.
  change (Prim2SF 0) with (S754_zero false).
  destruct (Prim2SF a) as [[]|[]| |[] m e]; cbv; congruence.
Qed.


Lemma clamp_id q : Double.negative q = false -> Double.clamp q = q.
Proof. unfold Double.clamp, Double.negative. intros ->. reflexivity. Qed.

(** Two doubles with different specifications are different. *)
Lemma Prim2SF_neq a b : Prim2SF a <> Prim2SF b -> a <> b.
Proof. intros Hne ->. apply Hne. reflexivity. Qed.












End DoubleFacts.

(** * A range of integers *)



(** * The shared per-entity pattern *)

Section EntityFacts.
Context `{Externals} {K : Type} `{Countable K}.
Implicit Types (s : EntityModel.t K) (k : K).

Lemma entity_record_setCurrentTime s k e :
  EntityModel.record k (EntityModel.setCurrentTime k e s)
  = {| EntityModel.previousTime :=
         EntityModel.previousTime (EntityModel.record k s);
       EntityModel.currentTime := e |}.
Proof.
  unfold EntityModel.record, EntityModel.setCurrentTime. simpl.
  rewrite lookup_insert_eq. reflexivity.
Qed.

(** The Q that [Prepare] stores, and the record it leaves. *)
Lemma entity_variance_Prepare s k e :
  EntityModel.variance (EntityModel.Prepare e k s)
  = Double.clamp (EntityModel.qprime s * elapsed e (EntityModel.since k e s)).
Proof.
  unfold EntityModel.Prepare, EntityModel.computeQ, EntityModel.since.
  rewrite entity_record_setCurrentTime. simpl.
  destruct (decide _); reflexivity.
Qed.

Lemma entity_record_Prepare s k e :
  EntityModel.record k (EntityModel.Prepare e k s)
  = {| EntityModel.previousTime := e; EntityModel.currentTime := e |}.
Proof.
  unfold EntityModel.Prepare, EntityModel.computeQ.
  rewrite entity_record_setCurrentTime. simpl.
  unfold EntityModel.record at 1. unfold EntityModel.setPreviousTime. simpl.
  rewrite lookup_insert_eq. simpl. f_equal.
  change (EntityModel.record k (EntityModel.setVariance ?q ?s'))
    with (EntityModel.record k s').
  rewrite entity_record_setCurrentTime. reflexivity.
Qed.

Lemma entity_qprime_Prepare s k e :
  EntityModel.qprime (EntityModel.Prepare e k s) = EntityModel.qprime s.
Proof. reflexivity. Qed.

Lemma entity_since_Prepare s k t0 t1 :
  t0 <> BEGINNING_OF_TIME ->
  EntityModel.since k t1 (EntityModel.Prepare t0 k s) = t0.
Proof.
  intros Ht0. unfold EntityModel.since. rewrite entity_record_Prepare. simpl.
  destruct (decide _); [contradiction | reflexivity].
Qed.

Lemma entity_Prepare_twice s k t0 t1 :
  t0 <> BEGINNING_OF_TIME ->
  EntityModel.variance (EntityModel.Prepare t1 k (EntityModel.Prepare t0 k s))
  = Double.clamp (EntityModel.qprime s * elapsed t1 t0).
Proof.
  intros Ht0. rewrite entity_variance_Prepare, entity_since_Prepare by done.
  reflexivity.
Qed.


(** Another key's record is not touched. *)
Lemma entity_record_Prepare_ne s k k' e :
  k <> k' ->
  EntityModel.record k' (EntityModel.Prepare e k s) = EntityModel.record k' s.
Proof.
  intros Hne.
  unfold EntityModel.Prepare, EntityModel.computeQ, EntityModel.record,
    EntityModel.setPreviousTime, EntityModel.setCurrentTime,
    EntityModel.setVariance. simpl.
  rewrite !lookup_insert_ne by done. reflexivity.
Qed.

End EntityFacts.

(** * The claims *)

Create HintDb classes.

#[local] Hint Unfold
  TropoRandomWalkModel.Prepare TropoRandomWalkModel.getQ
  TropoRandomWalkModel.getPhi TropoRandomWalkModel.qprime
  TropoRandomWalkModel.variance TropoRandomWalkModel.tmData
  TropoRandomWalkModel.setQprime_source TropoRandomWalkModel.setQprime
  TropoGradRandomWalkModel.Prepare TropoGradRandomWalkModel.getQ
  TropoGradRandomWalkModel.getPhi TropoGradRandomWalkModel.qprime
  TropoGradRandomWalkModel.variance TropoGradRandomWalkModel.gmData
  TropoGradRandomWalkModel.setQprime_source TropoGradRandomWalkModel.setQprime
  RecBiasRandomWalkModel.Prepare RecBiasRandomWalkModel.getQ
  RecBiasRandomWalkModel.getPhi RecBiasRandomWalkModel.qprime
  RecBiasRandomWalkModel.variance RecBiasRandomWalkModel.rbData
  RecBiasRandomWalkModel.setQprime_source RecBiasRandomWalkModel.setQprime
  SatBiasRandomWalkModel.Prepare SatBiasRandomWalkModel.getQ
  SatBiasRandomWalkModel.getPhi SatBiasRandomWalkModel.qprime
  SatBiasRandomWalkModel.variance SatBiasRandomWalkModel.sbData
  SatBiasRandomWalkModel.setQprime_sat SatBiasRandomWalkModel.setQprime
  ISBRandomWalkModel.Prepare ISBRandomWalkModel.getQ
  ISBRandomWalkModel.getPhi ISBRandomWalkModel.qprime
  ISBRandomWalkModel.variance ISBRandomWalkModel.ISBmData
  ISBRandomWalkModel.setQprime_source ISBRandomWalkModel.setQprime
  IFCBRandomWalkModel.Prepare IFCBRandomWalkModel.getQ
  IFCBRandomWalkModel.getPhi IFCBRandomWalkModel.qprime
  IFCBRandomWalkModel.variance IFCBRandomWalkModel.IFCBmData
  IFCBRandomWalkModel.setQprime_source_sat IFCBRandomWalkModel.setQprime
  IonoRandomWalkModel.getQ IonoRandomWalkModel.getPhi
  IonoRandomWalkModel.qprime IonoRandomWalkModel.variance
  IonoRandomWalkModel.imData IonoRandomWalkModel.setQprime_sat
  IonoRandomWalkModel.setQprime IonoRandomWalkModel.computeQ
  IonoRandomWalkModel.setCurrentTime
  TropoRandomWalkModel.computeQ TropoRandomWalkModel.setCurrentTime
  TropoGradRandomWalkModel.computeQ TropoGradRandomWalkModel.setCurrentTime
  RecBiasRandomWalkModel.computeQ RecBiasRandomWalkModel.setCurrentTime
  SatBiasRandomWalkModel.computeQ SatBiasRandomWalkModel.setCurrentTime
  ISBRandomWalkModel.computeQ ISBRandomWalkModel.setCurrentTime
  IFCBRandomWalkModel.computeQ IFCBRandomWalkModel.setCurrentTime
  EntityModel.getQ EntityModel.getPhi : classes.

(** After the wrappers of a class are unfolded, its [Prepare] shows as the
    two steps of the shared one. *)
Ltac fold_Prepare :=
  repeat match goal with
  | |- context [EntityModel.computeQ ?k
                  (EntityModel.setCurrentTime ?k ?e ?s)] =>
      change (EntityModel.computeQ k (EntityModel.setCurrentTime k e s))
        with (EntityModel.Prepare e k s)
  end.

Section IonoFacts.
Context `{Externals}.
Implicit Types (s : IonoRandomWalkModel.t).

(** Off the schedule, [Prepare] is the shared elapsed-time path. *)
Lemma iono_Prepare_elapsed s epoch source sat tData :
  IonoRandomWalkModel.atInterrupt epoch s = false ->
  IonoRandomWalkModel.Prepare epoch source sat tData s
  = IonoRandomWalkModel.withRw (EntityModel.Prepare epoch sat) s.
Proof.
  intros Hoff. unfold IonoRandomWalkModel.Prepare. rewrite Hoff.
  reflexivity.
Qed.


End IonoFacts.

Section Claims.
Context `{Externals}.

(** C1 (as amended).  Two [Prepare] calls for the same entity at epochs
    [t0] and [t1], with [t1 - t0] positive, leave [getQ()] equal to
    [qprime * (t1 - t0)] and [getPhi()] equal to 1.0, for every member of
    the random-walk family, provided that neither call falls on the
    interrupt schedule of an [IonoRandomWalkModel] and that, for the
    per-entity classes, [t0] is not the unset sentinel and [qprime] is at
    least 0 (so that the clamp leaves the product alone). *)
Theorem C1_two_epochs_elapsed_Q (m : Model) (q : float)
    (t0 t1 : CommonTime) (source : SourceID) (sat : SatID)
    (d0 d1 : typeValueMap) :
  qprimeOf m = Some q ->
  (0 <? elapsed t1 t0) = true ->
  (perEntity m = true ->
     t0 <> BEGINNING_OF_TIME /\ (0 <=? q) = true) ->
  interrupted t0 m = false ->
  interrupted t1 m = false ->
  let m2 := Prepare t1 source sat d1 (Prepare t0 source sat d0 m) in
  fst (getQ m2) = q * elapsed t1 t0 /\ fst (getPhi m2) = 1.0.
Proof.
  intros Hq Hlt Hent Hi0 Hi1.
  assert (Hclamp : perEntity m = true ->
                   Double.clamp (q * elapsed t1 t0) = q * elapsed t1 t0).
  { intros [_ Hq0]%Hent. apply clamp_id, mul_not_negative.
    - by apply nonneg_not_negative.
    - by apply pos_not_negative. }
  destruct m as [s|s|s|s|s|s|s|s|s|s|s];
    cbn [qprimeOf perEntity interrupted] in *; try discriminate;
    injection Hq as <-;
    try (destruct (Hent eq_refl) as [Ht0 _]; specialize (Hclamp eq_refl));
    cbn [getQ getPhi Prepare]; autounfold with classes in *;
    cbn [fst snd prod_map id]; fold_Prepare.
  - split; reflexivity.
  - by rewrite entity_Prepare_twice.
  - by rewrite entity_Prepare_twice.
  - rewrite (iono_Prepare_elapsed s) by done.
    rewrite iono_Prepare_elapsed by done.
    cbn [IonoRandomWalkModel.withRw IonoRandomWalkModel.rw].
    by rewrite entity_Prepare_twice.
  - by rewrite entity_Prepare_twice.
  - by rewrite entity_Prepare_twice.
  - by rewrite entity_Prepare_twice.
  - by rewrite entity_Prepare_twice.
Qed.


(** In arc mode a [Prepare] whose data carry the arc value [arc] stores
    it and raises the flag when a different value was cached. *)
Lemma phase_Prepare_arc (s : PhaseAmbiguityModel.t) epoch source sat
    (tData : typeValueMap) arc :
  PhaseAmbiguityModel.watchSatArc s = true ->
  PhaseAmbiguityModel.Prepare epoch source sat (<[satArc := arc]> tData) s
  = PhaseAmbiguityModel.setCS
      (match PhaseAmbiguityModel.cachedArc source sat s with
       | None => false
       | Some last => Double.neqb arc last
       end)
      (PhaseAmbiguityModel.storeArc source sat arc s).
Proof.
  intros Harc.
  unfold PhaseAmbiguityModel.Prepare, PhaseAmbiguityModel.checkCS.
  rewrite Harc, lookup_insert_eq. simpl. rewrite lookup_insert_eq.
  reflexivity.
Qed.

Lemma phase_cachedArc_storeArc (s : PhaseAmbiguityModel.t) source sat arc cs :
  PhaseAmbiguityModel.cachedArc source sat
    (PhaseAmbiguityModel.setCS cs
       (PhaseAmbiguityModel.storeArc source sat arc s))
  = Some arc.
Proof.
  unfold PhaseAmbiguityModel.cachedArc. simpl.
  rewrite lookup_insert_eq. simpl. apply lookup_insert_eq.
Qed.

(** C3.  In arc mode, from a state that has no arc value cached for the
    (source, satellite) key, five [Prepare] calls carrying the arc values
    1, 1, 1, 2, 2 set the slip flag to false, false, false, true, false.
    Every call in arc mode raises the flag exactly when a cached value
    exists and differs from the new one, and leaves the new value in the
    cache; a freshly constructed model is in arc mode with an empty
    cache. *)
Theorem C3_arc_mode_slip_sequence :
  (forall (s : PhaseAmbiguityModel.t) source sat e1 e2 e3 e4 e5
          (d1 d2 d3 d4 d5 : typeValueMap),
     PhaseAmbiguityModel.watchSatArc s = true ->
     PhaseAmbiguityModel.cachedArc source sat s = None ->
     fst (PhaseAmbiguityModel.feed source sat
            [(e1, <[satArc := 1.0]> d1); (e2, <[satArc := 1.0]> d2);
             (e3, <[satArc := 1.0]> d3); (e4, <[satArc := 2.0]> d4);
             (e5, <[satArc := 2.0]> d5)] s)
     = [false; false; false; true; false])
  /\ (forall (s : PhaseAmbiguityModel.t) epoch source sat
             (tData : typeValueMap) arc,
        PhaseAmbiguityModel.watchSatArc s = true ->
        let s' := PhaseAmbiguityModel.Prepare epoch source sat
                    (<[satArc := arc]> tData) s in
        fst (PhaseAmbiguityModel.getCS s')
        = match PhaseAmbiguityModel.cachedArc source sat s with
          | None => false
          | Some last => Double.neqb arc last
          end
        /\ PhaseAmbiguityModel.cachedArc source sat s' = Some arc
        /\ PhaseAmbiguityModel.watchSatArc s' = true)
  /\ (forall sigma source sat,
        PhaseAmbiguityModel.watchSatArc (PhaseAmbiguityModel.new sigma)
        = true
        /\ PhaseAmbiguityModel.cachedArc source sat
             (PhaseAmbiguityModel.new sigma) = None).
Proof.
  split; [|split].
  - intros s source sat e1 e2 e3 e4 e5 d1 d2 d3 d4 d5 Harc Hnone.
    cbn [PhaseAmbiguityModel.feed PhaseAmbiguityModel.getCS fst].
    rewrite !phase_Prepare_arc by done.
    rewrite !phase_cachedArc_storeArc, Hnone. reflexivity.
  - intros s epoch source sat tData arc Harc. cbn zeta.
    rewrite phase_Prepare_arc by done.
    split; [reflexivity | split; [apply phase_cachedArc_storeArc | exact Harc]].
  - intros sigma source sat. split; [reflexivity|].
    unfold PhaseAmbiguityModel.cachedArc. simpl. by rewrite lookup_empty.
Qed.

(** C4.  After [setCS(true)], [getPhi()] is 0.0 and [getQ()] is the
    variance member, which a constructor or [setSigma] with argument
    [sigma] sets to [sigma * sigma]; after [setCS(false)], [getPhi()] is
    1.0 and [getQ()] is 0.0. *)
Theorem C4_setCS_selects_Phi_and_Q (s : PhaseAmbiguityModel.t)
    (sigma : float) :
  (let s1 := PhaseAmbiguityModel.setCS true s in
   fst (PhaseAmbiguityModel.getPhi s1) = 0.0
   /\ fst (PhaseAmbiguityModel.getQ s1) = PhaseAmbiguityModel.variance s)
  /\ (let s0 := PhaseAmbiguityModel.setCS false s in
      fst (PhaseAmbiguityModel.getPhi s0) = 1.0
      /\ fst (PhaseAmbiguityModel.getQ s0) = 0.0)
  /\ fst (PhaseAmbiguityModel.getQ
            (PhaseAmbiguityModel.setCS true
               (PhaseAmbiguityModel.setSigma sigma s))) = sigma * sigma
  /\ fst (PhaseAmbiguityModel.getQ
            (PhaseAmbiguityModel.setCS true
               (PhaseAmbiguityModel.new sigma))) = sigma * sigma.
Proof. repeat split. Qed.

(** The per-entity overload writes the one [qprime] member, and the next
    [Prepare] of any key multiplies by it. *)
Lemma entity_setQprimeFor {K : Type} `{Countable K}
    (s : EntityModel.t K) (key k : K) (qp : float) (epoch : CommonTime) :
  let s' := EntityModel.setQprimeFor key qp s in
  s' = EntityModel.setQprime qp s
  /\ EntityModel.qprime s' = qp
  /\ EntityModel.mData s' = EntityModel.mData s
  /\ EntityModel.variance (EntityModel.Prepare epoch k s')
     = Double.clamp (qp * elapsed epoch (EntityModel.since k epoch s))
  /\ EntityModel.qprime (EntityModel.Prepare epoch k s') = qp.
Proof.
  cbn zeta. repeat split. rewrite entity_variance_Prepare. reflexivity.
Qed.

(** C5.  In each of the seven per-entity classes the overload
    [setQprime(key, qp)] is the assignment [qprime = qp] of the overload
    without key: the epoch records are left as they are, and the Q that a
    later [Prepare] computes from the elapsed time of any entity, the
    given one or another, is [qp] times that time (clamped at 0). *)
Theorem C5_setQprime_key_sets_shared_qprime (qp : float)
    (epoch : CommonTime) (source source' : SourceID) (sat sat' : SatID)
    (tData : typeValueMap) :
  (forall s : TropoRandomWalkModel.t,
     let s' := TropoRandomWalkModel.setQprime_source source' qp s in
     s' = TropoRandomWalkModel.setQprime qp s
     /\ TropoRandomWalkModel.qprime s' = qp
     /\ TropoRandomWalkModel.tmData s' = TropoRandomWalkModel.tmData s
     /\ fst (TropoRandomWalkModel.getQ
               (TropoRandomWalkModel.Prepare epoch source sat tData s'))
        = Double.clamp
            (qp * elapsed epoch (EntityModel.since source epoch s))
     /\ TropoRandomWalkModel.qprime
          (TropoRandomWalkModel.Prepare epoch source sat tData s') = qp)
  /\ (forall s : TropoGradRandomWalkModel.t,
        let s' := TropoGradRandomWalkModel.setQprime_source source' qp s in
        s' = TropoGradRandomWalkModel.setQprime qp s
        /\ TropoGradRandomWalkModel.qprime s' = qp
        /\ TropoGradRandomWalkModel.gmData s'
           = TropoGradRandomWalkModel.gmData s
        /\ fst (TropoGradRandomWalkModel.getQ
                  (TropoGradRandomWalkModel.Prepare
                     epoch source sat tData s'))
           = Double.clamp
               (qp * elapsed epoch (EntityModel.since source epoch s))
        /\ TropoGradRandomWalkModel.qprime
             (TropoGradRandomWalkModel.Prepare epoch source sat tData s') = qp)
  /\ (forall s : IonoRandomWalkModel.t,
        let s' := IonoRandomWalkModel.setQprime_sat sat' qp s in
        s' = IonoRandomWalkModel.setQprime qp s
        /\ IonoRandomWalkModel.qprime s' = qp
        /\ IonoRandomWalkModel.imData s' = IonoRandomWalkModel.imData s
        /\ (IonoRandomWalkModel.atInterrupt epoch s = false ->
            fst (IonoRandomWalkModel.getQ
                   (IonoRandomWalkModel.Prepare epoch source sat tData s'))
            = Double.clamp
                (qp * elapsed epoch
                        (EntityModel.since sat epoch
                           (IonoRandomWalkModel.rw s))))
        /\ IonoRandomWalkModel.qprime
             (IonoRandomWalkModel.Prepare epoch source sat tData s') = qp)
  /\ (forall s : RecBiasRandomWalkModel.t,
        let s' := RecBiasRandomWalkModel.setQprime_source source' qp s in
        s' = RecBiasRandomWalkModel.setQprime qp s
        /\ RecBiasRandomWalkModel.qprime s' = qp
        /\ RecBiasRandomWalkModel.rbData s' = RecBiasRandomWalkModel.rbData s
        /\ fst (RecBiasRandomWalkModel.getQ
                  (RecBiasRandomWalkModel.Prepare epoch source sat tData s'))
           = Double.clamp
               (qp * elapsed epoch (EntityModel.since source epoch s))
        /\ RecBiasRandomWalkModel.qprime
             (RecBiasRandomWalkModel.Prepare epoch source sat tData s') = qp)
  /\ (forall s : SatBiasRandomWalkModel.t,
        let s' := SatBiasRandomWalkModel.setQprime_sat sat' qp s in
        s' = SatBiasRandomWalkModel.setQprime qp s
        /\ SatBiasRandomWalkModel.qprime s' = qp
        /\ SatBiasRandomWalkModel.sbData s' = SatBiasRandomWalkModel.sbData s
        /\ fst (SatBiasRandomWalkModel.getQ
                  (SatBiasRandomWalkModel.Prepare epoch source sat tData s'))
           = Double.clamp
               (qp * elapsed epoch (EntityModel.since sat epoch s))
        /\ SatBiasRandomWalkModel.qprime
             (SatBiasRandomWalkModel.Prepare epoch source sat tData s') = qp)
  /\ (forall s : ISBRandomWalkModel.t,
        let s' := ISBRandomWalkModel.setQprime_source source' qp s in
        s' = ISBRandomWalkModel.setQprime qp s
        /\ ISBRandomWalkModel.qprime s' = qp
        /\ ISBRandomWalkModel.ISBmData s' = ISBRandomWalkModel.ISBmData s
        /\ fst (ISBRandomWalkModel.getQ
                  (ISBRandomWalkModel.Prepare epoch source sat tData s'))
           = Double.clamp
               (qp * elapsed epoch (EntityModel.since source epoch s))
        /\ ISBRandomWalkModel.qprime
             (ISBRandomWalkModel.Prepare epoch source sat tData s') = qp)
  /\ (forall s : IFCBRandomWalkModel.t,
        let s' := IFCBRandomWalkModel.setQprime_source_sat
                    source' sat' qp s in
        s' = IFCBRandomWalkModel.setQprime qp s
        /\ IFCBRandomWalkModel.qprime s' = qp
        /\ IFCBRandomWalkModel.IFCBmData s'
           = IFCBRandomWalkModel.IFCBmData s
        /\ fst (IFCBRandomWalkModel.getQ
                  (IFCBRandomWalkModel.Prepare epoch source sat tData s'))
           = Double.clamp
               (qp * elapsed epoch
                       (EntityModel.since (source, sat) epoch s))
        /\ IFCBRandomWalkModel.qprime
             (IFCBRandomWalkModel.Prepare epoch source sat tData s') = qp).
Proof.
  repeat apply conj; intros s;
    try (autounfold with classes; cbn [fst];
         solve [apply entity_setQprimeFor]).
  cbn zeta. repeat split.
  - intros Hoff. rewrite iono_Prepare_elapsed by exact Hoff.
    autounfold with classes.
    cbn [fst IonoRandomWalkModel.withRw IonoRandomWalkModel.rw].
    apply entity_setQprimeFor.
  - unfold IonoRandomWalkModel.Prepare. by case_match.
Qed.

Lemma prepareAll_WhiteNoise (calls : list Call) (s : WhiteNoiseModel.t) :
  prepareAll calls (WhiteNoise s) = WhiteNoise s.
Proof.
  unfold prepareAll. induction calls as [|c calls IH]; [reflexivity|].
  exact IH.
Qed.

(** C6.  A [WhiteNoiseModel] whose sigma was set to [sigma], by the
    constructor or by [setSigma], answers [sigma * sigma] to [getQ()] and
    0.0 to [getPhi()] after any sequence of [Prepare] calls. *)
Theorem C6_white_noise_ignores_history (sigma : float)
    (s : WhiteNoiseModel.t) (calls : list Call) :
  (let m := prepareAll calls (WhiteNoise (WhiteNoiseModel.new sigma)) in
   fst (getQ m) = sigma * sigma /\ fst (getPhi m) = 0.0)
  /\ (let m :=
        prepareAll calls (WhiteNoise (WhiteNoiseModel.setSigma sigma s)) in
      fst (getQ m) = sigma * sigma /\ fst (getPhi m) = 0.0).
Proof. cbn zeta. rewrite !prepareAll_WhiteNoise. repeat split. Qed.

(** C7.  The default constructors of the seven per-entity classes set
    [qprime] to the tabulated value and start with an empty map from the
    tabulated key: station ([SourceID]), satellite ([SatID]), or the
    pair. *)
Theorem C7_default_qprime_and_key (variance0 : float) :
  (TropoRandomWalkModel.qprime (TropoRandomWalkModel.new variance0) = 5.0e-8
   /\ TropoRandomWalkModel.tmData (TropoRandomWalkModel.new variance0)
      = (∅ : gmap SourceID EntityModel.modelData))
  /\ (TropoGradRandomWalkModel.qprime
        (TropoGradRandomWalkModel.new variance0) = 5.0e-10
      /\ TropoGradRandomWalkModel.gmData
           (TropoGradRandomWalkModel.new variance0)
         = (∅ : gmap SourceID EntityModel.modelData))
  /\ (IonoRandomWalkModel.qprime (IonoRandomWalkModel.new variance0)
      = 1.0e-3
      /\ IonoRandomWalkModel.imData (IonoRandomWalkModel.new variance0)
         = (∅ : gmap SatID EntityModel.modelData))
  /\ (RecBiasRandomWalkModel.qprime (RecBiasRandomWalkModel.new variance0)
      = 1.0e-4
      /\ RecBiasRandomWalkModel.rbData (RecBiasRandomWalkModel.new variance0)
         = (∅ : gmap SourceID EntityModel.modelData))
  /\ (SatBiasRandomWalkModel.qprime (SatBiasRandomWalkModel.new variance0)
      = 3.0e-6
      /\ SatBiasRandomWalkModel.sbData (SatBiasRandomWalkModel.new variance0)
         = (∅ : gmap SatID EntityModel.modelData))
  /\ (ISBRandomWalkModel.qprime (ISBRandomWalkModel.new variance0) = 9.0e-4
      /\ ISBRandomWalkModel.ISBmData (ISBRandomWalkModel.new variance0)
         = (∅ : gmap SourceID EntityModel.modelData))
  /\ (IFCBRandomWalkModel.qprime (IFCBRandomWalkModel.new variance0)
      = 1.0e-4
      /\ IFCBRandomWalkModel.IFCBmData (IFCBRandomWalkModel.new variance0)
         = (∅ : gmap (SourceID * SatID) EntityModel.modelData)).
Proof. repeat split. Qed.


(** C9.  In every class and every state, [getPhi()] and [getQ()] leave
    the object as it is, so any number of reads with no [Prepare] in
    between return the same pair of values each time. *)
Theorem C9_reads_repeat (m : Model) (n : nat) :
  snd (getPhi m) = m
  /\ snd (getQ m) = m
  /\ readMany n m = (replicate n (fst (getPhi m), fst (getQ m)), m).
Proof.
  assert (Hphi : forall m', getPhi m' = (fst (getPhi m'), m'))
    by (intros []; reflexivity).
  assert (HQ : forall m', getQ m' = (fst (getQ m'), m'))
    by (intros []; reflexivity).
  split; [by rewrite Hphi | split; [by rewrite HQ |]].
  induction n as [|n IH]; [reflexivity|].
  cbn [readMany replicate]. rewrite Hphi, HQ, IH. reflexivity.
Qed.

(** C10.  The constructor [RandomWalkModel(qp, prevTime, currTime)] does
    not use its third argument: the member [currentTime] of the new
    object is [prevTime], and any two third arguments give the same
    object. *)
Theorem C10_constructor_ignores_currentTime (qp : float)
    (prevTime currTime currTime' : CommonTime) :
  RandomWalkModel.currentTime (RandomWalkModel.new3 qp prevTime currTime)
  = prevTime
  /\ RandomWalkModel.previousTime (RandomWalkModel.new3 qp prevTime currTime)
     = prevTime
  /\ RandomWalkModel.qprime (RandomWalkModel.new3 qp prevTime currTime) = qp
  /\ RandomWalkModel.new3 qp prevTime currTime
     = RandomWalkModel.new3 qp prevTime currTime'.
Proof. repeat split. Qed.

End Claims.

(** * The claims on concrete inputs

    Station 0, satellite 3, epochs in seconds after [BEGINNING_OF_TIME]. *)

Section Instances.
#[local] Existing Instance Sample.externals.

(** C1 as stated fails in three ways.  A default [IonoRandomWalkModel]
    prepared at 7100 s and 7200 s answers the interrupt variance, not
    [qprime * 100]: 7200 s is on its schedule.  A [TropoRandomWalkModel]
    with [qprime = -1.0] prepared at 100 s and 130 s answers 0, not -30:
    the product is clamped.  A default [TropoRandomWalkModel] prepared at
    [BEGINNING_OF_TIME] and 30 s later answers 0: the first epoch is taken
    for an unset one. *)
Lemma C1_counterexample :
  (let m := IonoRandomWalk (IonoRandomWalkModel.new 0.0) in
   qprimeOf m = Some 1.0e-3
   /\ (0 <? elapsed (Sample.epoch 7200) (Sample.epoch 7100)) = true
   /\ fst (getQ (Sample.prepareAt 7200 (Sample.prepareAt 7100 m)))
      <> 1.0e-3 * elapsed (Sample.epoch 7200) (Sample.epoch 7100))
  /\ (let m := TropoRandomWalk
                 (TropoRandomWalkModel.setQprime (-1.0)
                    (TropoRandomWalkModel.new 0.0)) in
      qprimeOf m = Some (-1.0)
      /\ (0 <? elapsed (Sample.epoch 130) (Sample.epoch 100)) = true
      /\ fst (getQ (Sample.prepareAt 130 (Sample.prepareAt 100 m)))
         <> -1.0 * elapsed (Sample.epoch 130) (Sample.epoch 100))
  /\ (let m := TropoRandomWalk (TropoRandomWalkModel.new 0.0) in
      qprimeOf m = Some 5.0e-8
      /\ Sample.epoch 0 = BEGINNING_OF_TIME
      /\ (0 <? elapsed (Sample.epoch 30) (Sample.epoch 0)) = true
      /\ fst (getQ (Sample.prepareAt 30 (Sample.prepareAt 0 m)))
         <> 5.0e-8 * elapsed (Sample.epoch 30) (Sample.epoch 0)).
Proof.
  repeat split; try reflexivity;
    apply Prim2SF_neq; vm_compute; discriminate.
Qed.

Lemma C1_witness :
  let m := IonoRandomWalk (IonoRandomWalkModel.new 0.0) in
  let m2 := Sample.prepareAt 130 (Sample.prepareAt 100 m) in
  fst (getQ m2) = 1.0e-3 * elapsed (Sample.epoch 130) (Sample.epoch 100)
  /\ fst (getPhi m2) = 1.0.
Proof.
  apply (C1_two_epochs_elapsed_Q (H := Sample.externals)
           (IonoRandomWalk (IonoRandomWalkModel.new 0.0)) 1.0e-3
           (Sample.epoch 100) (Sample.epoch 130)
           (Sample.station 0) (Sample.satellite 3)
           Sample.noData Sample.noData).
  - reflexivity.
  - reflexivity.
  - intros _. split; [discriminate | reflexivity].
  - reflexivity.
  - reflexivity.
Defined.


Lemma C3_witness :
  fst (PhaseAmbiguityModel.feed (Sample.station 0) (Sample.satellite 3)
         [(Sample.epoch 0, Sample.arcData 1.0);
          (Sample.epoch 30, Sample.arcData 1.0);
          (Sample.epoch 60, Sample.arcData 1.0);
          (Sample.epoch 90, Sample.arcData 2.0);
          (Sample.epoch 120, Sample.arcData 2.0)]
         PhaseAmbiguityModel.new0)
  = [false; false; false; true; false].
Proof.
  apply (proj1 (C3_arc_mode_slip_sequence (H := Sample.externals))
           PhaseAmbiguityModel.new0
           (Sample.station 0) (Sample.satellite 3)
           (Sample.epoch 0) (Sample.epoch 30) (Sample.epoch 60)
           (Sample.epoch 90) (Sample.epoch 120)
           Sample.noData Sample.noData Sample.noData Sample.noData
           Sample.noData).
  - reflexivity.
  - reflexivity.
Defined.

(** The satellite is prepared at 100 s, [setQprime] is called with
    another satellite and the value 2.0, and the satellite is prepared
    again at 130 s: Q is 2.0 times the 30 s, not the default 1.0e-3 times
    them. *)
Lemma C5_witness :
  let s := Sample.ionoPrepareAt 100 (IonoRandomWalkModel.new 0.0) in
  let s' := IonoRandomWalkModel.setQprime_sat (Sample.satellite 7) 2.0 s in
  fst (IonoRandomWalkModel.getQ (Sample.ionoPrepareAt 130 s'))
  = Double.clamp
      (2.0 * elapsed (Sample.epoch 130)
               (EntityModel.since (Sample.satellite 3) (Sample.epoch 130)
                  (IonoRandomWalkModel.rw s)))
  /\ fst (IonoRandomWalkModel.getQ (Sample.ionoPrepareAt 130 s')) = 60.0
  /\ fst (IonoRandomWalkModel.getQ (Sample.ionoPrepareAt 130 s)) = 0.03.
Proof.
  split; [|split; reflexivity].
  apply (proj1 (proj2 (proj2
           (C5_setQprime_key_sets_shared_qprime (H := Sample.externals)
              2.0 (Sample.epoch 130) (Sample.station 0) (Sample.station 1)
              (Sample.satellite 3) (Sample.satellite 7) Sample.noData)))
           (Sample.ionoPrepareAt 100 (IonoRandomWalkModel.new 0.0))).
  reflexivity.
Defined.



End Instances.

(** * Further properties of the header's code *)

Section Extras.
Context `{Externals}.

Lemma opp_mul_opp (a b : float) : (- a) * (- b) = a * b.
Proof.
  apply Prim2SF_inj.
  rewrite !FloatAxioms.mul_spec, !FloatAxioms.opp_spec.
  destruct (Prim2SF a) as [sa|sa| |sa ma ea],
           (Prim2SF b) as [sb|sb| |sb mb eb];
    try reflexivity; destruct sa, sb; reflexivity.
Qed.

(** X1.  The sign of sigma is lost: [WhiteNoiseModel] and
    [PhaseAmbiguityModel] built or reconfigured with [-sigma] are the
    objects built or reconfigured with [sigma]. *)
Theorem X1_sigma_sign_is_lost (sigma : float) (w : WhiteNoiseModel.t)
    (p : PhaseAmbiguityModel.t) :
  WhiteNoiseModel.new (- sigma) = WhiteNoiseModel.new sigma
  /\ WhiteNoiseModel.setSigma (- sigma) w = WhiteNoiseModel.setSigma sigma w
  /\ PhaseAmbiguityModel.new (- sigma) = PhaseAmbiguityModel.new sigma
  /\ PhaseAmbiguityModel.setSigma (- sigma) p
     = PhaseAmbiguityModel.setSigma sigma p.
Proof.
  unfold WhiteNoiseModel.new, WhiteNoiseModel.setSigma,
    PhaseAmbiguityModel.new, PhaseAmbiguityModel.setSigma.
  rewrite !opp_mul_opp. repeat split.
Qed.

(** X2.  The three setters of [RandomWalkModel] write three different
    members: setters of different members commute, the last call of a
    setter decides its member, and from any object the three setters
    reach any other object; the three-argument constructor is the
    default object with [qprime] set and both epochs set to its second
    argument. *)
Theorem X2_random_walk_setters (s s0 : RandomWalkModel.t)
    (qp qp' : float) (p p' c c' : CommonTime) :
  (RandomWalkModel.setPreviousTime p (RandomWalkModel.setCurrentTime c s)
   = RandomWalkModel.setCurrentTime c (RandomWalkModel.setPreviousTime p s)
   /\ RandomWalkModel.setQprime qp (RandomWalkModel.setCurrentTime c s)
      = RandomWalkModel.setCurrentTime c (RandomWalkModel.setQprime qp s)
   /\ RandomWalkModel.setQprime qp (RandomWalkModel.setPreviousTime p s)
      = RandomWalkModel.setPreviousTime p (RandomWalkModel.setQprime qp s))
  /\ (RandomWalkModel.setPreviousTime p (RandomWalkModel.setPreviousTime p' s)
      = RandomWalkModel.setPreviousTime p s
      /\ RandomWalkModel.setCurrentTime c (RandomWalkModel.setCurrentTime c' s)
         = RandomWalkModel.setCurrentTime c s
      /\ RandomWalkModel.setQprime qp (RandomWalkModel.setQprime qp' s)
         = RandomWalkModel.setQprime qp s)
  /\ RandomWalkModel.setQprime (RandomWalkModel.qprime s)
       (RandomWalkModel.setPreviousTime (RandomWalkModel.previousTime s)
          (RandomWalkModel.setCurrentTime (RandomWalkModel.currentTime s) s0))
     = s
  /\ RandomWalkModel.new3 qp p c
     = RandomWalkModel.setQprime qp
         (RandomWalkModel.setCurrentTime p
            (RandomWalkModel.setPreviousTime p RandomWalkModel.new)).
Proof. destruct s, s0. repeat split. Qed.

(** X3.  No setter of [PhaseAmbiguityModel] touches the arc cache, and
    each of the four members they write holds what the last call of its
    own setter wrote (or what it held before, if there was no such call):
    [setSigma] does not reset the slip flag, and switching
    [setWatchSatArc] off and on again keeps every cached arc value. *)
Theorem X3_phase_setters_frame (cs : list PhaseSetters.setter)
    (s : PhaseAmbiguityModel.t) :
  let s' := PhaseSetters.applySetters cs s in
  PhaseAmbiguityModel.satArcMap s' = PhaseAmbiguityModel.satArcMap s
  /\ fst (PhaseAmbiguityModel.getCS s')
     = PhaseSetters.lastCS (PhaseAmbiguityModel.cycleSlip s) cs
  /\ PhaseAmbiguityModel.watchSatArc s'
     = PhaseSetters.lastWatchSatArc (PhaseAmbiguityModel.watchSatArc s) cs
  /\ PhaseAmbiguityModel.variance s'
     = PhaseSetters.lastVariance (PhaseAmbiguityModel.variance s) cs
  /\ fst (PhaseAmbiguityModel.getCSFlagType s')
     = PhaseSetters.lastCSFlagType (PhaseAmbiguityModel.csFlagType s) cs.
Proof.
  cbn zeta. unfold PhaseSetters.applySetters.
  revert s. induction cs as [|c cs IH]; intros s; [repeat split|].
  cbn [foldl]. destruct (IH (PhaseSetters.applySetter s c)) as (?&?&?&?&?).
  destruct c; cbn in *; repeat split; assumption.
Qed.

Section EntityExtras.
Context {K : Type} `{Countable K}.
Implicit Types (s : EntityModel.t K) (k : K).

(** X4.  What the time setters write is read back: the setter's member
    of the key's record is the argument, the other member is what the
    record held, and for a key that has no record the other member is that
    of a fresh record, [BEGINNING_OF_TIME] for [previousTime] and a
    default-constructed epoch for [currentTime]. *)
Theorem X4_time_setters_read_back s k (p c : CommonTime) :
  EntityModel.record k (EntityModel.setPreviousTime k p s)
  = {| EntityModel.previousTime := p;
       EntityModel.currentTime :=
         EntityModel.currentTime (EntityModel.record k s) |}
  /\ EntityModel.record k (EntityModel.setCurrentTime k c s)
     = {| EntityModel.previousTime :=
            EntityModel.previousTime (EntityModel.record k s);
          EntityModel.currentTime := c |}
  /\ (EntityModel.mData s !! k = None ->
      EntityModel.record k (EntityModel.setPreviousTime k p s)
      = {| EntityModel.previousTime := p;
           EntityModel.currentTime := CommonTime_new |}
      /\ EntityModel.record k (EntityModel.setCurrentTime k c s)
         = {| EntityModel.previousTime := BEGINNING_OF_TIME;
              EntityModel.currentTime := c |}).
Proof.
  unfold EntityModel.setPreviousTime, EntityModel.setCurrentTime,
    EntityModel.record.
  cbn [EntityModel.mData]. rewrite !lookup_insert_eq.
  split; [reflexivity | split; [reflexivity |]].
  intros ->. split; reflexivity.
Qed.

Lemma entity_applySetter_lookup_ne s (c : EntitySetters.setter K) k :
  k ∉ EntitySetters.indexed [c] ->
  EntityModel.mData (EntitySetters.applySetter s c) !! k
  = EntityModel.mData s !! k.
Proof.
  destruct c as [k' t|k' t|k' qp]; cbn; intros Hk; [| |reflexivity];
    apply lookup_insert_ne; intros ->; apply Hk;
    apply elem_of_union_l, elem_of_singleton; reflexivity.
Qed.

Lemma entity_indexed_cons (c : EntitySetters.setter K)
    (cs : list (EntitySetters.setter K)) :
  EntitySetters.indexed (c :: cs)
  = EntitySetters.indexed [c] ∪ EntitySetters.indexed cs.
Proof.
  destruct c; cbn [EntitySetters.indexed];
    rewrite ?(right_id_L ∅ (∪)), ?(left_id_L ∅ (∪)); reflexivity.
Qed.

(** X5.  The setters leave the other entities alone: after any sequence
    of setter calls, a key that no time setter of the sequence was called
    with has the record, or the absence of a record, that it had before. *)
Theorem X5_setters_leave_other_keys (cs : list (EntitySetters.setter K))
    s k :
  k ∉ EntitySetters.indexed cs ->
  EntityModel.mData (EntitySetters.applySetters cs s) !! k
  = EntityModel.mData s !! k
  /\ EntityModel.record k (EntitySetters.applySetters cs s)
     = EntityModel.record k s.
Proof.
  intros Hk.
  assert (Hlookup : EntityModel.mData (EntitySetters.applySetters cs s) !! k
                    = EntityModel.mData s !! k).
  { unfold EntitySetters.applySetters. revert s.
    induction cs as [|c cs IH]; intros s; [reflexivity|].
    rewrite entity_indexed_cons, not_elem_of_union in Hk.
    destruct Hk as [Hc Hcs].
    cbn [foldl]. rewrite IH by exact Hcs.
    by apply entity_applySetter_lookup_ne. }
  split; [exact Hlookup|]. unfold EntityModel.record. by rewrite Hlookup.
Qed.

(** X6.  The two time setters commute, whether they are called with the
    same key or with different keys; the same setter called with two
    different keys commutes with itself, and called twice with one key
    keeps the second value. *)
Theorem X6_time_setters_commute s k k' (p p' c c' : CommonTime) :
  EntityModel.setPreviousTime k p (EntityModel.setCurrentTime k' c s)
  = EntityModel.setCurrentTime k' c (EntityModel.setPreviousTime k p s)
  /\ (k <> k' ->
      EntityModel.setPreviousTime k p (EntityModel.setPreviousTime k' p' s)
      = EntityModel.setPreviousTime k' p' (EntityModel.setPreviousTime k p s)
      /\ EntityModel.setCurrentTime k c (EntityModel.setCurrentTime k' c' s)
         = EntityModel.setCurrentTime k' c' (EntityModel.setCurrentTime k c s))
  /\ EntityModel.setPreviousTime k p (EntityModel.setPreviousTime k p' s)
     = EntityModel.setPreviousTime k p s
  /\ EntityModel.setCurrentTime k c (EntityModel.setCurrentTime k c' s)
     = EntityModel.setCurrentTime k c s.
Proof.
  unfold EntityModel.setPreviousTime, EntityModel.setCurrentTime,
    EntityModel.record. cbn.
  split; [|split; [|split]].
  - f_equal. destruct (decide (k = k')) as [->|Hne].
    + rewrite !lookup_insert_eq, !insert_insert_eq. reflexivity.
    + rewrite !lookup_insert_ne by done. by apply insert_insert_ne.
  - intros Hne. split; f_equal;
      rewrite !lookup_insert_ne by done; by apply insert_insert_ne.
  - f_equal. rewrite lookup_insert_eq, insert_insert_eq. reflexivity.
  - f_equal. rewrite lookup_insert_eq, insert_insert_eq. reflexivity.
Qed.

(** X7.  The setters never remove a record.  After a sequence of setter
    calls the keys that have a record are those that had one and those
    that a time setter was called with; [setQprime(key, qp)] creates no
    record for its key. *)
Theorem X7_setters_keys (cs : list (EntitySetters.setter K)) s :
  dom (EntityModel.mData (EntitySetters.applySetters cs s))
  = dom (EntityModel.mData s) ∪ EntitySetters.indexed cs.
Proof.
  unfold EntitySetters.applySetters. revert s.
  induction cs as [|c cs IH]; intros s.
  - cbn. by rewrite (right_id_L ∅ (∪)).
  - cbn [foldl]. rewrite IH, entity_indexed_cons, (assoc_L (∪)).
    f_equal. destruct c as [k t|k t|k qp]; cbn;
      rewrite ?dom_insert_L, (right_id_L ∅ (∪)); [| |reflexivity];
      apply (comm_L (∪)).
Qed.

(** X8.  No setter writes [variance]: after any sequence of setter calls
    [getQ()] returns what it returned before, and on a newly constructed
    object that is the content the constructor left in the member, which
    it does not initialise. *)
Theorem X8_setters_keep_variance (cs : list (EntitySetters.setter K)) s
    (qp variance0 : float) :
  fst (EntityModel.getQ (EntitySetters.applySetters cs s))
  = fst (EntityModel.getQ s)
  /\ fst (EntityModel.getQ
            (EntitySetters.applySetters cs (EntityModel.new qp variance0)))
     = variance0.
Proof.
  assert (Hv : forall s', EntityModel.variance
                            (EntitySetters.applySetters cs s')
                          = EntityModel.variance s').
  { unfold EntitySetters.applySetters.
    induction cs as [|c cs IH]; intros s'; [reflexivity|].
    cbn [foldl]. rewrite IH. by destruct c. }
  unfold EntityModel.getQ. cbn [fst]. rewrite !Hv. split; reflexivity.
Qed.

End EntityExtras.

(** Writing [IFCBmData[source][sat]] is writing the pair's entry of the
    flattened map. *)
Lemma map_uncurry_insert_inner {A : Type}
    (m : gmap SourceID (gmap SatID A)) (source : SourceID) (sat : SatID)
    (x : A) :
  map_uncurry (M1 := gmap SourceID) (M2 := gmap SatID)
    (M12 := gmap (SourceID * SatID))
    (<[source := <[sat := x]> (default ∅ (m !! source))]> m)
  = <[(source, sat) := x]>
      (map_uncurry (M1 := gmap SourceID) (M2 := gmap SatID)
         (M12 := gmap (SourceID * SatID)) m).
Proof.
  apply map_eq. intros [source' sat']. rewrite lookup_map_uncurry.
  destruct (decide (source = source')) as [<-|Hsource].
  - rewrite lookup_insert_eq. cbn.
    destruct (decide (sat = sat')) as [<-|Hsat].
    + by rewrite !lookup_insert_eq.
    + rewrite !lookup_insert_ne by congruence.
      rewrite lookup_map_uncurry. by destruct (m !! source).
  - rewrite !lookup_insert_ne by congruence.
    by rewrite lookup_map_uncurry.
Qed.

Lemma ifcb_record_flatten (s : IFCBTwoLevel.t) source sat :
  EntityModel.record (source, sat) (IFCBTwoLevel.flatten s)
  = IFCBTwoLevel.record source sat s.
Proof.
  unfold EntityModel.record, IFCBTwoLevel.record, IFCBTwoLevel.inner,
    IFCBTwoLevel.flatten. cbn [EntityModel.mData].
  rewrite lookup_map_uncurry. by destruct (IFCBTwoLevel.IFCBmData s !! source).
Qed.

(** X9.  The two-level map of [IFCBRandomWalkModel] behaves as a map from
    the (source, satellite) pair: reading the two-level object as a
    pair-keyed one turns each inline method of the class into the method
    of the pair-keyed class, the constructor included, and the two
    objects hold the same record for every pair and return the same Q. *)
Theorem X9_ifcb_two_level_is_pair_keyed (s : IFCBTwoLevel.t)
    (source : SourceID) (sat : SatID) (t : CommonTime)
    (qp variance0 : float) :
  IFCBTwoLevel.flatten (IFCBTwoLevel.new variance0)
  = IFCBRandomWalkModel.new variance0
  /\ IFCBTwoLevel.flatten (IFCBTwoLevel.setPreviousTime source sat t s)
     = IFCBRandomWalkModel.setPreviousTime source sat t
         (IFCBTwoLevel.flatten s)
  /\ IFCBTwoLevel.flatten (IFCBTwoLevel.setCurrentTime source sat t s)
     = IFCBRandomWalkModel.setCurrentTime source sat t
         (IFCBTwoLevel.flatten s)
  /\ IFCBTwoLevel.flatten (IFCBTwoLevel.setQprime_source_sat source sat qp s)
     = IFCBRandomWalkModel.setQprime_source_sat source sat qp
         (IFCBTwoLevel.flatten s)
  /\ EntityModel.record (source, sat) (IFCBTwoLevel.flatten s)
     = IFCBTwoLevel.record source sat s
  /\ fst (IFCBRandomWalkModel.getQ (IFCBTwoLevel.flatten s))
     = fst (IFCBTwoLevel.getQ s).
Proof.
  repeat apply conj; try reflexivity.
  - unfold IFCBRandomWalkModel.setPreviousTime, EntityModel.setPreviousTime.
    rewrite ifcb_record_flatten.
    unfold IFCBTwoLevel.flatten, IFCBTwoLevel.setPreviousTime,
      IFCBTwoLevel.inner.
    cbn [IFCBTwoLevel.qprime IFCBTwoLevel.IFCBmData IFCBTwoLevel.variance
         EntityModel.qprime EntityModel.mData EntityModel.variance].
    by rewrite map_uncurry_insert_inner.
  - unfold IFCBRandomWalkModel.setCurrentTime, EntityModel.setCurrentTime.
    rewrite ifcb_record_flatten.
    unfold IFCBTwoLevel.flatten, IFCBTwoLevel.setCurrentTime,
      IFCBTwoLevel.inner.
    cbn [IFCBTwoLevel.qprime IFCBTwoLevel.IFCBmData IFCBTwoLevel.variance
         EntityModel.qprime EntityModel.mData EntityModel.variance].
    by rewrite map_uncurry_insert_inner.
  - apply ifcb_record_flatten.
Qed.

(** X10.  No method of [IonoRandomWalkModel] whose body is in the header
    writes [sampling] or [tolerance]: after any sequence of calls of
    these methods the two members hold what the constructor stored, 7200.0
    and 0.5.  [insertInterrupt] and [initialTime] hold what the last call
    of their own setter stored, or the constructor's [true] and
    [BEGINNING_OF_TIME]. *)
Theorem X10_iono_schedule_members (cs : list IonoCalls.call)
    (s : IonoRandomWalkModel.t) (variance0 : float) :
  (let s' := IonoCalls.applyCalls cs s in
   IonoRandomWalkModel.sampling s' = IonoRandomWalkModel.sampling s
   /\ IonoRandomWalkModel.tolerance s' = IonoRandomWalkModel.tolerance s
   /\ IonoRandomWalkModel.insertInterrupt s'
      = IonoCalls.lastInsertInterrupt
          (IonoRandomWalkModel.insertInterrupt s) cs
   /\ IonoRandomWalkModel.initialTime s'
      = IonoCalls.lastInitialEpoch (IonoRandomWalkModel.initialTime s) cs)
  /\ (let s' := IonoCalls.applyCalls cs (IonoRandomWalkModel.new variance0) in
      IonoRandomWalkModel.sampling s' = 7200.0
      /\ IonoRandomWalkModel.tolerance s' = 0.5
      /\ IonoRandomWalkModel.insertInterrupt s'
         = IonoCalls.lastInsertInterrupt true cs
      /\ IonoRandomWalkModel.initialTime s'
         = IonoCalls.lastInitialEpoch BEGINNING_OF_TIME cs).
Proof.
  assert (Hgen : forall s0,
    let s' := IonoCalls.applyCalls cs s0 in
    IonoRandomWalkModel.sampling s' = IonoRandomWalkModel.sampling s0
    /\ IonoRandomWalkModel.tolerance s' = IonoRandomWalkModel.tolerance s0
    /\ IonoRandomWalkModel.insertInterrupt s'
       = IonoCalls.lastInsertInterrupt
           (IonoRandomWalkModel.insertInterrupt s0) cs
    /\ IonoRandomWalkModel.initialTime s'
       = IonoCalls.lastInitialEpoch (IonoRandomWalkModel.initialTime s0) cs).
  { cbn zeta. unfold IonoCalls.applyCalls.
    induction cs as [|c cs IH]; intros s0; [repeat split|].
    cbn [foldl]. destruct (IH (IonoCalls.applyCall s0 c)) as (Hs&Ht&Hi&He).
    rewrite Hs, Ht, Hi, He. destruct c; repeat split. }
  split; [apply Hgen | apply (Hgen (IonoRandomWalkModel.new variance0))].
Qed.

End Extras.

(** * The further properties on concrete inputs *)

Section ExtraInstances.
#[local] Existing Instance Sample.externals.

(** A newly constructed [TropoRandomWalkModel] has no record for
    station 0. *)
Lemma X4_witness :
  let s := TropoRandomWalkModel.new 0.0 in
  EntityModel.record (Sample.station 0)
    (EntityModel.setPreviousTime (Sample.station 0) (Sample.epoch 100) s)
  = {| EntityModel.previousTime := Sample.epoch 100;
       EntityModel.currentTime := CommonTime_new |}
  /\ EntityModel.record (Sample.station 0)
       (EntityModel.setCurrentTime (Sample.station 0) (Sample.epoch 130) s)
     = {| EntityModel.previousTime := BEGINNING_OF_TIME;
          EntityModel.currentTime := Sample.epoch 130 |}.
Proof.
  apply (proj2 (proj2
           (X4_time_setters_read_back (H := Sample.externals)
              (TropoRandomWalkModel.new 0.0) (Sample.station 0)
              (Sample.epoch 100) (Sample.epoch 130)))).
  reflexivity.
Defined.

(** The setters are called with station 0; station 1 is looked up. *)
Lemma X5_witness :
  let cs := [EntitySetters.SetPreviousTime (Sample.station 0)
               (Sample.epoch 100);
             EntitySetters.SetQprimeFor (Sample.station 1) 2.0;
             EntitySetters.SetCurrentTime (Sample.station 0)
               (Sample.epoch 130)] in
  let s := EntityModel.setCurrentTime (Sample.station 1) (Sample.epoch 70)
             (TropoRandomWalkModel.new 0.0) in
  EntityModel.mData (EntitySetters.applySetters cs s) !! Sample.station 1
  = EntityModel.mData s !! Sample.station 1
  /\ EntityModel.record (Sample.station 1) (EntitySetters.applySetters cs s)
     = EntityModel.record (Sample.station 1) s.
Proof.
  apply (X5_setters_leave_other_keys (H := Sample.externals)).
  cbn [EntitySetters.indexed].
  rewrite !not_elem_of_union, !not_elem_of_singleton.
  split; [discriminate | split; [discriminate | apply not_elem_of_empty]].
Defined.

Lemma X6_witness :
  let s := TropoRandomWalkModel.new 0.0 in
  EntityModel.setPreviousTime (Sample.station 0) (Sample.epoch 100)
    (EntityModel.setPreviousTime (Sample.station 1) (Sample.epoch 70) s)
  = EntityModel.setPreviousTime (Sample.station 1) (Sample.epoch 70)
      (EntityModel.setPreviousTime (Sample.station 0) (Sample.epoch 100) s)
  /\ EntityModel.setCurrentTime (Sample.station 0) (Sample.epoch 130)
       (EntityModel.setCurrentTime (Sample.station 1) (Sample.epoch 90) s)
     = EntityModel.setCurrentTime (Sample.station 1) (Sample.epoch 90)
         (EntityModel.setCurrentTime (Sample.station 0) (Sample.epoch 130) s).
Proof.
  apply (proj1 (proj2
           (X6_time_setters_commute (H := Sample.externals)
              (TropoRandomWalkModel.new 0.0)
              (Sample.station 0) (Sample.station 1)
              (Sample.epoch 100) (Sample.epoch 70)
              (Sample.epoch 130) (Sample.epoch 90)))).
  discriminate.
Defined.

End ExtraInstances.
